(** * The tree-view action registry (notebook/static/tree/js/treeactions.js)

    A shallow embedding of [ActionHandler]: the two built-in action tables,
    the table built by [fun()] and stored on the shared prototype, and the
    methods [extend_env], [register], [normalise], [get_name], [get], [call]
    and [exists].

    JavaScript values are embedded as an inductive type, objects as finite
    maps from property names, exceptions as an explicit result type, and the
    mutable state (the prototype's action table, the environment objects and
    the user interface the handlers act on) is passed explicitly. *)

From Stdlib Require Import ZArith String Ascii.
From stdpp Require Import base option gmap strings pretty list fin_maps.

Local Open Scope string_scope.
Local Open Scope Z_scope.

(** ** Values *)

(** Primitive JavaScript values.  Numbers are the integers the code handles
    (row and cell indices, counts). *)
Inductive prim : Type :=
  | PUndefined
  | PNull
  | PBool (b : bool)
  | PNum (n : Z)
  | PStr (s : string).

(** What a [throw] or a failing property access raises.  [TypeError] is the
    runtime's own error: reading a property of [undefined] or [null], or
    calling something that is not a function. *)
Inductive exn : Type :=
  | TypeError
  | Thrown (v : prim).

Definition result (A : Type) : Type := (exn + A)%type.

(** Addresses of environment objects. *)
Definition loc : Type := positive.

(** A computation over a mutable state [S] that may throw.  An exception
    keeps the state reached so far: nothing is rolled back. *)
Definition M (S A : Type) : Type := S -> result A * S.

Definition ret {S A} (a : A) : M S A := fun s => (inr a, s).

Definition throw {S A} (e : exn) : M S A := fun s => (inl e, s).

Definition bind {S A B} (c : M S A) (k : A -> M S B) : M S B :=
  fun s =>
    match c s with
    | (inl e, s') => (inl e, s')
    | (inr a, s') => k a s'
    end.

Declare Scope js_scope.
Delimit Scope js_scope with js.
Notation "x <- c ;; k" := (bind c (fun x => k))
  (at level 100, c at next level, right associativity) : js_scope.
Notation "c ;;; k" := (bind c (fun _ => k))
  (at level 100, right associativity) : js_scope.
Local Open Scope js_scope.

(** [if (c) { body }] with no else branch. *)
Definition when {S} (c : bool) (body : M S unit) : M S unit :=
  if c then body else ret tt.

Section Registry.

(** The state of the user interface (the file list, the notebook, the
    editor, the events in flight): everything the handlers reach through
    the environment.  It is external to this file. *)
Context {U : Type}.

(** *** External collaborators

    The objects the built-in handlers find in the environment.  Their
    methods are outside this file: each is an operation on the user
    interface that may throw. *)

Record Event : Type := {
  preventDefault : U -> U
}.

Record NotebookList : Type := {
  get_length_siblings : string -> M U Z;
  open : M U unit;
  nl_get_selected_index : M U Z;
  select_row : Z -> M U unit
}.

Record Cursor : Type := { ch : Z }.

Record CodeMirror : Type := {
  getCursor : M U Cursor;
  setCursor : Z -> Z -> M U unit;
  lastLine : M U Z
}.

Record Cell : Type := {
  at_top : M U bool;
  at_bottom : M U bool;
  code_mirror : option CodeMirror
}.

Record ScrollManager : Type := {
  scroll : Z -> M U prim
}.

Record Notebook : Type := {
  get_selected_index : M U Z;
  get_cell : Z -> M U (option Cell);
  get_selected_cell : M U (option Cell);
  ncells : M U Z;
  command_mode : M U unit;
  edit_mode : M U unit;
  select_prev : M U unit;
  select_next : M U unit;
  scroll_manager : option ScrollManager;
  scroll_cell_percent : Z -> Z -> Z -> M U prim;
  save_checkpoint : M U unit
}.

(** What an environment key can hold. *)
Inductive handle : Type :=
  | HNotebookList (nl : NotebookList)
  | HNotebook (nb : Notebook)
  | HPrim (p : prim).

(** What a handler can reach: the environment objects (by address, since
    [this.env] and the [env] argument of [call] are references) and the
    user interface. *)
Record world : Type := {
  envs : gmap loc (gmap string handle);
  ui : U
}.

(** A function object: its text, which is what [String(f)] returns, and
    what calling it as [f(env, event)] does.  A handler acts on what it is
    handed, the environment and through it the user interface; it does not
    call back into the registry.  [call] invokes a stored function as a
    method of its record, so in the source a client's function also
    reaches that record as [this]; what it does to it is outside this
    embedding (the built-in wrappers do not use [this]). *)
Record jsfun : Type := {
  fn_src : string;
  fn_run : loc -> option Event -> M world prim
}.

(** The values [register] and [normalise] receive and the action table
    holds. *)
#[warnings="-register-all"]
Inductive data : Type :=
  | DPrim (p : prim)
  | DFun (f : jsfun)
  | DObj (o : gmap string data).

(** *** JavaScript operators on values *)

(** [typeof(d) === 'function'] *)
Definition is_function (d : data) : bool :=
  match d with DFun _ => true | _ => false end.

(** [typeof(d) === 'string'] *)
Definition is_string (d : data) : bool :=
  match d with DPrim (PStr _) => true | _ => false end.

(** [typeof(d) !== 'undefined'] *)
Definition is_defined (d : data) : bool :=
  match d with DPrim PUndefined => false | _ => true end.

(** Truthiness: [undefined], [null], [false], [0] and the empty string
    are falsy, everything else (functions and objects included) is truthy. *)
Definition truthy (d : data) : bool :=
  match d with
  | DPrim PUndefined | DPrim PNull | DPrim (PBool false) => false
  | DPrim (PNum n) => negb (Z.eqb n 0)
  | DPrim (PStr s) => negb (String.eqb s "")
  | _ => true
  end.

(** [a || b] *)
Definition js_or (a b : data) : data := if truthy a then a else b.

(** [d.k] for the property names this file reads ([handler], [help],
    [icon], [help_index]): a [TypeError] on [undefined] and [null], the
    own property of an object, [undefined] where there is none (no
    primitive wrapper, function object or [Object.prototype] has a
    property of one of these names). *)
Definition get_prop (d : data) (k : string) : result data :=
  match d with
  | DPrim PUndefined | DPrim PNull => inl TypeError
  | DObj o => inr (default (DPrim PUndefined) (o !! k))
  | _ => inr (DPrim PUndefined)
  end.

(** [String(d)]: a function gives its text. *)
Definition String_ (d : data) : string :=
  match d with
  | DPrim PUndefined => "undefined"
  | DPrim PNull => "null"
  | DPrim (PBool b) => if b then "true" else "false"
  | DPrim (PNum n) => pretty n
  | DPrim (PStr s) => s
  | DFun f => fn_src f
  | DObj _ => "[object Object]"
  end.

(** [s.replace(/-/g, ' ')] *)
Fixpoint replace_dashes (s : string) : string :=
  match s with
  | EmptyString => EmptyString
  | String c s' =>
      String (if Ascii.eqb c "-"%char then " "%char else c) (replace_dashes s')
  end.

(** ** The built-in actions *)

(** A collaborator's method, run from a handler. *)
Definition on_ui {A} (c : M U A) : M world A :=
  fun w =>
    match c (ui w) with
    | (r, u) => (r, {| envs := envs w; ui := u |})
    end.

(** [env.k], where [env] is the environment object a handler received. *)
Definition env_prop (env : loc) (k : string) : M world (option handle) :=
  fun w => (inr (envs w !! env ≫= fun o => o !! k), w).

(** [env.notebooklist.m(...)]: a [TypeError] unless the environment holds
    a file list under that key. *)
Definition nl_call {A} (env : loc) (m : NotebookList -> M U A) : M world A :=
  h <- env_prop env "notebooklist" ;;
  match h with
  | Some (HNotebookList nl) => on_ui (m nl)
  | _ => throw TypeError
  end.

(** [env.notebook.m(...)] *)
Definition nb_call {A} (env : loc) (m : Notebook -> M U A) : M world A :=
  h <- env_prop env "notebook" ;;
  match h with
  | Some (HNotebook nb) => on_ui (m nb)
  | _ => throw TypeError
  end.

(** [env.notebook.get_selected_cell().code_mirror] *)
Definition selected_code_mirror (env : loc) : M world (option CodeMirror) :=
  c <- nb_call env get_selected_cell ;;
  match c with
  | Some c => ret (code_mirror c)
  | None => throw TypeError
  end.

(** [cm.m(...)] *)
Definition cm_call {A} (cm : option CodeMirror) (m : CodeMirror -> M U A)
  : M world A :=
  match cm with
  | Some cm => on_ui (m cm)
  | None => throw TypeError
  end.

(** [if(event){ event.preventDefault(); }] *)
Definition prevent_default (event : option Event) : M world unit :=
  match event with
  | Some ev => on_ui (fun u => (inr tt, preventDefault ev u))
  | None => ret tt
  end.

Definition raw_handler : Type := loc -> option Event -> M world prim.

(** An entry of [_actions] or [custom_ignore]; an optional key that the
    literal leaves out is [None]. *)
Record action_source : Type := {
  help : option string;
  help_index : option string;
  icon : option string;
  handler : raw_handler
}.

Definition enter_row : raw_handler := fun env _ =>
  len_sib <- nl_call env (fun nl => get_length_siblings nl ".focus") ;;
  when (0 <? len_sib) (nl_call env open) ;;;
  ret PUndefined.

Definition select_previous_row : raw_handler := fun env _ =>
  focused <- nl_call env (fun nl => get_length_siblings nl ".focus") ;;
  when (0 <? focused)
    (index <- nl_call env nl_get_selected_index ;;
     when (0 <? index) (nl_call env (fun nl => select_row nl (index - 1)))) ;;;
  when (focused =? 0) (nl_call env (fun nl => select_row nl 0)) ;;;
  ret PUndefined.

Definition select_next_row : raw_handler := fun env _ =>
  focused <- nl_call env (fun nl => get_length_siblings nl ".focus") ;;
  len_sib <- nl_call env (fun nl => get_length_siblings nl ".list_item") ;;
  when (0 <? focused)
    (index <- nl_call env nl_get_selected_index ;;
     when (index <? len_sib) (nl_call env (fun nl => select_row nl (index + 1)))) ;;;
  when (focused =? 0) (nl_call env (fun nl => select_row nl 0)) ;;;
  ret PUndefined.

Definition _actions : list (string * action_source) :=
  [ ("enter-row",
     {| help := Some "opens active file or directory";
        help_index := Some "aa"; icon := None;
        handler := enter_row |});
    ("select-previous-row",
     {| help := Some "moves focus to previous file or directory";
        help_index := Some "ab"; icon := None;
        handler := select_previous_row |});
    ("select-next-row",
     {| help := Some "moves focus to next file or directory";
        help_index := Some "ac"; icon := None;
        handler := select_next_row |}) ].

Definition ignore : raw_handler := fun _ _ => ret (PBool true).

Definition move_cursor_up_or_previous_cell : raw_handler := fun env event =>
  index <- nb_call env get_selected_index ;;
  cell <- nb_call env (fun nb => get_cell nb index) ;;
  cm <- selected_code_mirror env ;;
  cur <- cm_call cm getCursor ;;
  top <- match cell with
         | Some c => on_ui (at_top c)
         | None => ret false
         end ;;
  when (top && negb (index =? 0) && (ch cur =? 0))
    (prevent_default event ;;;
     nb_call env command_mode ;;;
     nb_call env select_prev ;;;
     nb_call env edit_mode ;;;
     cm <- selected_code_mirror env ;;
     cm_call cm (fun cm => l <- lastLine cm ;; setCursor cm l 0)) ;;;
  ret (PBool false).

Definition move_cursor_down_or_next_cell : raw_handler := fun env event =>
  index <- nb_call env get_selected_index ;;
  cell <- nb_call env (fun nb => get_cell nb index) ;;
  bottom <- match cell with
            | Some c => on_ui (at_bottom c)
            | None => throw TypeError
            end ;;
  go <- (if bottom : bool
         then n <- nb_call env ncells ;; ret (negb (index =? n - 1))
         else ret false) ;;
  when go
    (prevent_default event ;;;
     nb_call env command_mode ;;;
     nb_call env select_next ;;;
     nb_call env edit_mode ;;;
     cm <- selected_code_mirror env ;;
     cm_call cm (fun cm => setCursor cm 0 0)) ;;;
  ret (PBool false).

(** [env.notebook.scroll_manager.scroll(n)] *)
Definition scroll_by (env : loc) (n : Z) : M world prim :=
  nb_call env (fun nb =>
    match scroll_manager nb with
    | Some sm => scroll sm n
    | None => throw TypeError
    end).

Definition scroll_down : raw_handler := fun env event =>
  prevent_default event ;;;
  scroll_by env 1.

Definition scroll_up : raw_handler := fun env event =>
  prevent_default event ;;;
  scroll_by env (-1).

Definition scroll_cell_center : raw_handler := fun env event =>
  prevent_default event ;;;
  cell <- nb_call env get_selected_index ;;
  nb_call env (fun nb => scroll_cell_percent nb cell 50 0).

Definition scroll_cell_top : raw_handler := fun env event =>
  prevent_default event ;;;
  cell <- nb_call env get_selected_index ;;
  nb_call env (fun nb => scroll_cell_percent nb cell 0 0).

Definition save_notebook : raw_handler := fun env event =>
  nb_call env save_checkpoint ;;;
  prevent_default event ;;;
  ret (PBool false).

Definition custom_ignore : list (string * action_source) :=
  [ ("ignore",
     {| help := None; help_index := None; icon := None;
        handler := ignore |});
    ("move-cursor-up-or-previous-cell",
     {| help := None; help_index := None; icon := None;
        handler := move_cursor_up_or_previous_cell |});
    ("move-cursor-down-or-next-cell",
     {| help := None; help_index := None; icon := None;
        handler := move_cursor_down_or_next_cell |});
    ("scroll-down",
     {| help := None; help_index := None; icon := None;
        handler := scroll_down |});
    ("scroll-up",
     {| help := None; help_index := None; icon := None;
        handler := scroll_up |});
    ("scroll-cell-center",
     {| help := Some "Scroll the current cell to the center";
        help_index := None; icon := None;
        handler := scroll_cell_center |});
    ("scroll-cell-top",
     {| help := Some "Scroll the current cell to the top";
        help_index := None; icon := None;
        handler := scroll_cell_top |});
    ("save-notebook",
     {| help := Some "Save and Checkpoint";
        help_index := Some "fb"; icon := Some "fa-save";
        handler := save_notebook |}) ].

(** ** Building the table: [_prepare_handler] and [fun] *)

(** [source[subkey]]: the entry of an object literal, [None] for a key
    the literal does not have. *)
Fixpoint source_get (source : list (string * action_source)) (subkey : string)
  : option action_source :=
  match source with
  | [] => None
  | (k, a) :: rest => if String.eqb k subkey then Some a else source_get rest subkey
  end.

(** An optional key of a literal, read: [undefined] when left out. *)
Definition read_opt (o : option string) : data :=
  match o with
  | Some s => DPrim (PStr s)
  | None => DPrim PUndefined
  end.

(** [registry[key] = {}] *)
Definition new_entry (key : string) : M (gmap string data) unit :=
  fun registry => (inr tt, <[key := DObj ∅]> registry).

(** [registry[key].field = v]: the entry is the object made by
    [new_entry]; a [TypeError] where there is none. *)
Definition set_field (key field : string) (v : data) : M (gmap string data) unit :=
  fun registry =>
    match registry !! key with
    | Some (DObj o) => (inr tt, <[key := DObj (<[field := v]> o)]> registry)
    | _ => (inl TypeError, registry)
    end.

Definition _prepare_handler (subkey : string) (source : list (string * action_source))
  : M (gmap string data) raw_handler :=
  new_entry ("ipython." ++ subkey) ;;;
  match source_get source subkey with
  | None => throw TypeError
  | Some src =>
      set_field ("ipython." ++ subkey) "help"
        (js_or (read_opt (help src)) (DPrim (PStr (replace_dashes subkey)))) ;;;
      set_field ("ipython." ++ subkey) "help_index" (read_opt (help_index src)) ;;;
      set_field ("ipython." ++ subkey) "icon" (read_opt (icon src)) ;;;
      ret (handler src)
  end.

(** The function stored for a simple action. *)
Definition simple_wrapper (handler : raw_handler) : jsfun :=
  {| fn_src := "function(env, event){
                        handler(env);
                        if(event){
                            event.preventDefault();
                        }
                        return false;
                    }";
     fn_run := fun env event =>
       handler env None ;;;
       prevent_default event ;;;
       ret (PBool false) |}.

(** The function stored for an advanced action. *)
Definition advanced_wrapper (handler : raw_handler) : jsfun :=
  {| fn_src := "function(env, event){
                        return handler(env, event);
                    }";
     fn_run := fun env event => handler env event |}.

(** [for(k in source){ if(source.hasOwnProperty(k)){ body } }] over an
    object literal: its keys, in the order written. *)
Fixpoint for_in {S A} (source : list (string * A)) (body : string -> M S unit)
  : M S unit :=
  match source with
  | [] => ret tt
  | (k, _) :: rest => body k ;;; for_in rest body
  end.

(** The body of [fun], run on [final_actions]. *)
Definition fun_body : M (gmap string data) unit :=
  for_in _actions (fun k =>
    handler <- _prepare_handler k _actions ;;
    set_field ("ipython." ++ k) "handler" (DFun (simple_wrapper handler))) ;;;
  for_in custom_ignore (fun k =>
    handler <- _prepare_handler k custom_ignore ;;
    set_field ("ipython." ++ k) "handler" (DFun (advanced_wrapper handler))).

(** [fun()]: [final_actions] starts empty and is returned. *)
Definition fun_ : result (gmap string data) :=
  match fun_body ∅ with
  | (inl e, _) => inl e
  | (inr _, final_actions) => inr final_actions
  end.

(** ** The registry *)

(** The state of the program: the table [ActionHandler.prototype._actions]
    (one object, on the prototype) and what the handlers reach. *)
Record state : Type := {
  proto_actions : gmap string data;
  wld : world
}.

(** An instance.  The constructor sets [env] and seals the object, so
    [env] is its only own property. *)
Record ActionHandler : Type := {
  env : loc
}.

(** The state once the module is loaded: [ActionHandler.prototype._actions
    = fun()]. *)
Definition loaded (w : world) : state :=
  {| proto_actions := match fun_ with inr t => t | inl _ => ∅ end;
     wld := w |}.

Definition in_world {A} (c : M world A) : M state A :=
  fun s =>
    match c (wld s) with
    | (r, w) => (r, {| proto_actions := proto_actions s; wld := w |})
    end.

Definition lift {S A} (r : result A) : M S A := fun s => (r, s).

(** [new ActionHandler(env)]: [this.env = env || {}]. *)
Definition new_ActionHandler (env_arg : option loc) : M state ActionHandler :=
  match env_arg with
  | Some l => ret {| env := l |}
  | None => fun s =>
      let l := fresh (dom (envs (wld s))) in
      (inr {| env := l |},
       {| proto_actions := proto_actions s;
          wld := {| envs := <[l := ∅]> (envs (wld s)); ui := ui (wld s) |} |})
  end.

(** The names every object inherits from [Object.prototype]. *)
Definition object_prototype : list string :=
  [ "constructor"; "hasOwnProperty"; "isPrototypeOf"; "propertyIsEnumerable";
    "toLocaleString"; "toString"; "valueOf"; "__defineGetter__";
    "__defineSetter__"; "__lookupGetter__"; "__lookupSetter__"; "__proto__" ].

(** What [this._actions[name]] evaluates to: an own entry of the table, a
    member inherited from [Object.prototype] (the table is a plain
    object), or [undefined]. *)
#[warnings="-register-all"]
Inductive slot : Type :=
  | Own (d : data)
  | Inherited (member : string)
  | Absent.

(** [this._actions[name]].  A sealed instance has no [_actions] of its
    own, so [this._actions] is the prototype's table whatever [this] is. *)
Definition actions_get (this : ActionHandler) (name : string) : M state slot :=
  fun s =>
    (inr match proto_actions s !! name with
         | Some d => Own d
         | None =>
             if bool_decide (name ∈ object_prototype) then Inherited name
             else Absent
         end, s).

(** [this._actions[full_name] = action].  [full_name] has a dot in it
    (see [register]), so it is none of the inherited names and the
    assignment makes or replaces an own entry. *)
Definition actions_set (this : ActionHandler) (full_name : string) (action : data)
  : M state unit :=
  fun s =>
    (inr tt,
     {| proto_actions := <[full_name := action]> (proto_actions s);
        wld := wld s |}).

(** The own properties that [this.env[k] = env[k]], for each [k] of
    [env], stores in the held object.  Every key makes or overwrites an
    own property, but ['__proto__']: unless the held object has an own
    property of that name already, that assignment goes to the setter
    inherited from [Object.prototype] and stores nothing (what the setter
    does to the prototype of the held object is outside this embedding,
    which has own properties only). *)
Definition assigned (held env_arg : gmap string handle) : gmap string handle :=
  if bool_decide (is_Some (held !! "__proto__")) then env_arg
  else delete "__proto__" env_arg.

(** [for(var k in env){ this.env[k] = env[k]; }] *)
Definition extend_env (this : ActionHandler) (env_arg : gmap string handle)
  : M state unit :=
  in_world (fun w =>
    (inr tt,
     {| envs := alter (fun held => assigned held env_arg ∪ held) (env this) (envs w);
        ui := ui w |})).

Definition normalise (data0 : data) : result data :=
  let data1 := if is_function data0 then DObj {[ "handler" := data0 ]} else data0 in
  match get_prop data1 "handler" with
  | inl e => inl e
  | inr h =>
      if negb (is_function h)
      then inl (Thrown (PStr "unknown datatype, cannot register"))
      else
        let _data := data1 in
        match get_prop _data "handler", get_prop _data "help",
              get_prop _data "icon", get_prop _data "help_index" with
        | inr handler, inr help, inr icon, inr help_index =>
            inr (DObj (<[ "help_index" := js_or help_index (DPrim (PStr "")) ]>
                      (<[ "icon" := js_or icon (DPrim (PStr "")) ]>
                      (<[ "help" := js_or help (DPrim (PStr "")) ]>
                      (<[ "handler" := handler ]> ∅)))))
        | inl e, _, _, _ | _, inl e, _, _ | _, _, inl e, _ | _, _, _, inl e => inl e
        end
  end.

(** Falsy for a name or prefix: left out, or the empty string. *)
Definition given (o : option string) : bool :=
  match o with
  | Some s => negb (String.eqb s "")
  | None => false
  end.

Definition register (this : ActionHandler) (action : data)
  (name prefix : option string) : M state string :=
  action <- lift (normalise action) ;;
  name <- (if negb (given name)
           then h <- lift (get_prop action "handler") ;;
                ret ("autogenerated-" ++ String_ h)
           else ret (default "" name)) ;;
  let prefix := if given prefix then default "" prefix else "auto" in
  let full_name := prefix ++ "." ++ name in
  actions_set this full_name action ;;;
  ret full_name.

(** [exists]: [typeof(this._actions[name]) !== 'undefined'] *)
Definition exists_ (this : ActionHandler) (name : string) : M state bool :=
  a <- actions_get this name ;;
  ret match a with
      | Own d => is_defined d
      | Inherited _ => true
      | Absent => false
      end.

(** [get_name]: a name that exists comes back, one that does not gives
    [null]; anything that is not a string is registered. *)
Definition get_name (this : ActionHandler) (name_or_data : data) : M state prim :=
  match name_or_data with
  | DPrim (PStr name) =>
      e <- exists_ this name ;;
      if e : bool then ret (PStr name) else ret PNull
  | _ =>
      full_name <- register this name_or_data None None ;;
      ret (PStr full_name)
  end.

Definition get (this : ActionHandler) (name : string) : M state slot :=
  actions_get this name.

(** [this._actions[name].handler(env || this.env, event)]: reading
    [.handler] of [undefined] and calling what is not a function are
    [TypeError]s.  The function runs on the environment and the event;
    the record it is a method of, which the source hands to it as [this],
    is not handed to [fn_run]. *)
Definition call (this : ActionHandler) (name : string) (event : option Event)
  (env_arg : option loc) : M state prim :=
  a <- actions_get this name ;;
  h <- lift match a with
            | Own d => get_prop d "handler"
            | Inherited _ => inr (DPrim PUndefined)
            | Absent => inl TypeError
            end ;;
  match h with
  | DFun f => in_world (fn_run f (default (env this) env_arg) event)
  | _ => throw TypeError
  end.

(** ** Predicates on values, used to state the properties *)

(** The function a bare function, or a record with a callable [handler],
    carries. *)
Definition handler_of (d : data) : option jsfun :=
  match d with
  | DFun f => Some f
  | DObj o =>
      match o !! "handler" with
      | Some (DFun f) => Some f
      | _ => None
      end
  | DPrim _ => None
  end.

(** [undefined] or [null]. *)
Definition nullish (d : data) : bool :=
  match d with
  | DPrim PUndefined | DPrim PNull => true
  | _ => false
  end.

(** The field [k] of a stored record: [undefined] where there is none. *)
Definition field (d : data) (k : string) : data :=
  match d with
  | DObj o => default (DPrim PUndefined) (o !! k)
  | _ => DPrim PUndefined
  end.

(** The record [fun] builds for the entry [subkey] of a source table. *)
Definition builtin_entry (wrapper : raw_handler -> jsfun) (subkey : string)
  (src : action_source) : data :=
  DObj (<[ "handler" := DFun (wrapper (handler src)) ]>
       (<[ "icon" := read_opt (icon src) ]>
       (<[ "help_index" := read_opt (help_index src) ]>
       (<[ "help" := js_or (read_opt (help src))
                        (DPrim (PStr (replace_dashes subkey))) ]> ∅)))).

(** The record [normalise] makes of [handler], [help], [icon] and
    [help_index]. *)
Definition normal_entry (handler help icon help_index : data) : data :=
  DObj (<[ "help_index" := js_or help_index (DPrim (PStr "")) ]>
       (<[ "icon" := js_or icon (DPrim (PStr "")) ]>
       (<[ "help" := js_or help (DPrim (PStr "")) ]>
       (<[ "handler" := handler ]> ∅)))).

(** The name [register] stores an action with the handler [f] under. *)
Definition full_name_of (f : jsfun) (name prefix : option string) : string :=
  (if given prefix then default "" prefix else "auto") ++ "." ++
  (if given name then default "" name else "autogenerated-" ++ fn_src f).

(** [final_actions] after the loop of [fun] over the entries [source]:
    one record per entry, stored in the order of the literal. *)
Definition fill (wrapper : raw_handler -> jsfun)
  (source : list (string * action_source)) (final_actions : gmap string data)
  : gmap string data :=
  foldl (fun r e => <[ "ipython." ++ e.1 := builtin_entry wrapper e.1 e.2 ]> r)
    final_actions source.

(** The table [fun] returns, entry by entry. *)
Definition builtin_table : gmap string data :=
  fill advanced_wrapper custom_ignore (fill simple_wrapper _actions ∅).

(** A value of the form [x || '']: the empty string, or truthy. *)
Definition defaulted (v : data) : Prop :=
  v = DPrim (PStr "") \/ truthy v = true.

(** A string, or [undefined]. *)
Definition string_or_undefined (v : data) : Prop :=
  is_string v = true \/ v = DPrim PUndefined.

(** The shape of a record stored by [register]. *)
Definition normalised_record (d : data) : Prop :=
  is_function (field d "handler") = true /\
  defaulted (field d "help") /\
  defaulted (field d "icon") /\
  defaulted (field d "help_index").

(** The shape of a record built by [fun]. *)
Definition builtin_record (d : data) : Prop :=
  is_function (field d "handler") = true /\
  (is_string (field d "help") = true /\ truthy (field d "help") = true) /\
  string_or_undefined (field d "icon") /\
  string_or_undefined (field d "help_index").

(** Every record of the table has one of the two shapes. *)
Definition table_shaped (t : gmap string data) : Prop :=
  map_Forall (fun _ d => builtin_record d \/ normalised_record d) t.

(** The calls a client can make, and the states they lead to. *)
Inductive request : Type :=
  | ReqNew (env_arg : option loc)
  | ReqExtendEnv (this : ActionHandler) (env_arg : gmap string handle)
  | ReqRegister (this : ActionHandler) (action : data) (name prefix : option string)
  | ReqGetName (this : ActionHandler) (name_or_data : data)
  | ReqGet (this : ActionHandler) (name : string)
  | ReqExists (this : ActionHandler) (name : string)
  | ReqCall (this : ActionHandler) (name : string) (event : option Event)
      (env_arg : option loc).

Definition serve (r : request) (s : state) : state :=
  match r with
  | ReqNew env_arg => snd (new_ActionHandler env_arg s)
  | ReqExtendEnv this env_arg => snd (extend_env this env_arg s)
  | ReqRegister this action name prefix => snd (register this action name prefix s)
  | ReqGetName this name_or_data => snd (get_name this name_or_data s)
  | ReqGet this name => snd (get this name s)
  | ReqExists this name => snd (exists_ this name s)
  | ReqCall this name event env_arg => snd (call this name event env_arg s)
  end.

Inductive reachable : state -> Prop :=
  | reachable_loaded (w : world) : reachable (loaded w)
  | reachable_serve (r : request) (s : state) :
      reachable s -> reachable (serve r s).







(** Whether a name has a dot in it. *)
Fixpoint has_dot (s : string) : bool :=
  match s with
  | EmptyString => false
  | String c s' => Ascii.eqb c "."%char || has_dot s'
  end.

(** A file list whose two queries answer without touching the page. *)
Definition reads_only (nl : NotebookList) : Prop :=
  (forall selector u, exists n, get_length_siblings nl selector u = (inr n, u)) /\
  (forall u, exists i, nl_get_selected_index nl u = (inr i, u)).

(** The environment object at [envl] holds no file list (no notebook)
    under the key the handlers read. *)
Definition no_notebooklist (envl : loc) (w : world) : Prop :=
  forall nl, envs w !! envl ≫= (fun o => o !! "notebooklist") <> Some (HNotebookList nl).

Definition no_notebook (envl : loc) (w : world) : Prop :=
  forall nb, envs w !! envl ≫= (fun o => o !! "notebook") <> Some (HNotebook nb).

End Registry.


(** ** A small user interface to run the handlers on *)

Module Page.

(** A file list with [rows] rows, [focused] of them focused, the row
    [selected] selected; [opened] once [open] was called and [prevented]
    once the event in flight had [preventDefault] called. *)
Record page : Type := {
  rows : Z;
  focused : Z;
  selected : Z;
  opened : bool;
  prevented : bool
}.

Definition file_list : @NotebookList page := {|
  get_length_siblings := fun selector u =>
    (inr (if String.eqb selector ".focus" then focused u else rows u), u);
  open := fun u =>
    (inr tt, {| rows := rows u; focused := focused u; selected := selected u;
                opened := true; prevented := prevented u |});
  nl_get_selected_index := fun u => (inr (selected u), u);
  select_row := fun i u =>
    (inr tt, {| rows := rows u; focused := 1; selected := i;
                opened := opened u; prevented := prevented u |})
|}.

Definition keydown : @Event page := {|
  preventDefault := fun u =>
    {| rows := rows u; focused := focused u; selected := selected u;
       opened := opened u; prevented := true |}
|}.

Definition start : page :=
  {| rows := 3; focused := 1; selected := 0; opened := false; prevented := false |}.

(** No environment object yet. *)
Definition bare : @world page := {| envs := ∅; ui := start |}.

(** One environment object, at address 1, holding the file list. *)
Definition listing : @world page :=
  {| envs := {[ 1%positive := {[ "notebooklist" := HNotebookList file_list ]} ]};
     ui := start |}.

(** The state [new ActionHandler()] leaves from [bare]: one empty
    environment object, at address 1. *)
Definition blank : @world page := {| envs := {[ 1%positive := ∅ ]}; ui := start |}.

(** [listing] once [open] was called. *)
Definition listing_opened : @world page :=
  {| envs := {[ 1%positive := {[ "notebooklist" := HNotebookList file_list ]} ]};
     ui := {| rows := 3; focused := 1; selected := 0; opened := true;
              prevented := false |} |}.

Definition handler_one : @ActionHandler := {| env := 1%positive |}.

Definition handler_two : @ActionHandler := {| env := 2%positive |}.

Definition enter_row_source : @action_source page :=
  {| help := Some "opens active file or directory";
     help_index := Some "aa"; icon := None;
     handler := enter_row |}.

Definition ignore_source : @action_source page :=
  {| help := None; help_index := None; icon := None; handler := ignore |}.

Definition scroll_down_source : @action_source page :=
  {| help := None; help_index := None; icon := None; handler := scroll_down |}.

Definition move_cursor_up_source : @action_source page :=
  {| help := None; help_index := None; icon := None;
     handler := move_cursor_up_or_previous_cell |}.

Definition noop : @jsfun page :=
  {| fn_src := "function () {}"; fn_run := fun _ _ => ret PUndefined |}.

Definition yes : @jsfun page :=
  {| fn_src := "function () { return true; }";
     fn_run := fun _ _ => ret (PBool true) |}.

(** A notebook with no cell and no scroll manager; saving it marks the
    page as [opened]. *)
Definition book : @Notebook page := {|
  get_selected_index := fun u => (inr (selected u), u);
  get_cell := fun _ u => (inr None, u);
  get_selected_cell := fun u => (inr None, u);
  ncells := fun u => (inr 0, u);
  command_mode := fun u => (inr tt, u);
  edit_mode := fun u => (inr tt, u);
  select_prev := fun u => (inr tt, u);
  select_next := fun u => (inr tt, u);
  scroll_manager := None;
  scroll_cell_percent := fun _ _ _ u => (inr PUndefined, u);
  save_checkpoint := fun u =>
    (inr tt, {| rows := rows u; focused := focused u; selected := selected u;
                opened := true; prevented := prevented u |})
|}.

(** One environment object, at address 1, holding the notebook. *)
Definition writing : @world page :=
  {| envs := {[ 1%positive := {[ "notebook" := HNotebook book ]} ]};
     ui := start |}.

End Page.

(** ** Properties *)

(** Looks a built-in name up in the table, insertion by insertion. *)
Ltac find_entry :=
  unfold builtin_table, fill, custom_ignore, _actions;
  cbn [foldl fst snd append];
  repeat (rewrite lookup_insert_ne by discriminate);
  apply lookup_insert_eq.

Section Facts.

Context {U : Type}.

Implicit Types (d action : @data U) (f g : @jsfun U) (s : @state U)
  (this other : ActionHandler) (name prefix : option string)
  (k : string) (src : @action_source U).

(** *** [normalise] *)

Lemma normalise_callable d f :
  handler_of d = Some f ->
  normalise d =
    inr (normal_entry (DFun f) (field d "help") (field d "icon")
           (field d "help_index")).
Proof.
  destruct d as [p | f' | o]; simpl; intros H.
  - discriminate.
  - injection H as ->. reflexivity.
  - destruct (o !! "handler") as [[p | f' | o'] |] eqn:Hh; try discriminate.
    injection H as ->.
    unfold normalise, get_prop. simpl. rewrite Hh. reflexivity.
Qed.

Lemma normalise_not_callable d :
  handler_of d = None ->
  normalise d =
    inl (if nullish d then TypeError
         else Thrown (PStr "unknown datatype, cannot register")).
Proof.
  destruct d as [p | f' | o]; simpl; intros H.
  - destruct p; reflexivity.
  - discriminate.
  - unfold normalise, get_prop. simpl.
    destruct (o !! "handler") as [[p | f' | o'] |]; try discriminate; reflexivity.
Qed.

Lemma normal_entry_handler (h help icon help_index : @data U) :
  get_prop (normal_entry h help icon help_index) "handler" = inr h.
Proof. reflexivity. Qed.

(** *** [register] *)

Lemma register_callable this d name prefix s f :
  handler_of d = Some f ->
  register this d name prefix s =
    (inr (full_name_of f name prefix),
     {| proto_actions :=
          <[ full_name_of f name prefix :=
               normal_entry (DFun f) (field d "help") (field d "icon")
                 (field d "help_index") ]> (proto_actions s);
        wld := wld s |}).
Proof.
  intros H. unfold register, bind, lift, full_name_of.
  rewrite (normalise_callable _ _ H), normal_entry_handler.
  destruct (given name); reflexivity.
Qed.

Lemma register_not_callable this d name prefix s :
  handler_of d = None ->
  register this d name prefix s =
    (inl (if nullish d then TypeError
          else Thrown (PStr "unknown datatype, cannot register")), s).
Proof.
  intros H. unfold register, bind, lift.
  rewrite (normalise_not_callable _ H). reflexivity.
Qed.

(** *** The table built by [fun] *)

(** One turn of a loop of [fun] stores the record of the entry. *)
Lemma loop_body_run (wrapper : @raw_handler U -> jsfun) source k src registry :
  source_get source k = Some src ->
  (handler <- _prepare_handler k source ;;
   set_field ("ipython." ++ k) "handler" (DFun (wrapper handler))) registry =
  (inr tt, <[ "ipython." ++ k := builtin_entry wrapper k src ]> registry).
Proof.
  intros Hsrc.
  unfold _prepare_handler, bind, new_entry, set_field, ret. rewrite Hsrc.
  repeat (rewrite lookup_insert_eq, insert_insert_eq).
  reflexivity.
Qed.

Lemma for_in_run (wrapper : @raw_handler U -> jsfun) source l registry :
  Forall (fun e => source_get source e.1 = Some e.2) l ->
  for_in l (fun k =>
    handler <- _prepare_handler k source ;;
    set_field ("ipython." ++ k) "handler" (DFun (wrapper handler))) registry =
  (inr tt, fill wrapper l registry).
Proof.
  intros H. revert registry.
  induction H as [| [k src] l Hk _ IH]; intros registry; [reflexivity |].
  cbn [for_in]. unfold bind at 1.
  rewrite (loop_body_run _ _ _ _ _ Hk). apply IH.
Qed.

Lemma fun_builds : @fun_ U = inr builtin_table.
Proof.
  pose proof (for_in_run simple_wrapper _actions _actions ∅) as H1.
  pose proof (for_in_run advanced_wrapper custom_ignore custom_ignore
                (fill simple_wrapper _actions ∅)) as H2.
  unfold fun_, fun_body. unfold bind at 1.
  rewrite H1 by (repeat constructor). rewrite H2 by (repeat constructor).
  reflexivity.
Qed.

Lemma loaded_table (w : world) : proto_actions (loaded w) = @builtin_table U.
Proof. unfold loaded. rewrite fun_builds. reflexivity. Qed.

Lemma builtin_table_simple k (src : @action_source U) :
  In (k, src) _actions ->
  builtin_table !! ("ipython." ++ k) = Some (builtin_entry simple_wrapper k src).
Proof.
  intros H. repeat (destruct H as [[= <- <-] | H]; [find_entry |]).
  destruct H.
Qed.

Lemma builtin_table_advanced k (src : @action_source U) :
  In (k, src) custom_ignore ->
  builtin_table !! ("ipython." ++ k) = Some (builtin_entry advanced_wrapper k src).
Proof.
  intros H. repeat (destruct H as [[= <- <-] | H]; [find_entry |]).
  destruct H.
Qed.

(** *** Results on [normalise] and [register] *)

(** C7. For every bare function [f], [normalise(f)] returns the complete
    record [{handler: f, help: '', icon: '', help_index: ''}]: the handler
    is the function passed in and the three other fields are the empty
    string. *)
Theorem normalise_bare_function f :
  normalise (DFun f) =
    inr (DObj {[ "handler" := DFun f;
                 "help" := DPrim (PStr "");
                 "icon" := DPrim (PStr "");
                 "help_index" := DPrim (PStr "") ]}).
Proof.
  rewrite (normalise_callable (DFun f) f eq_refl).
  unfold normal_entry, field, js_or. cbn [truthy].
  reflexivity.
Qed.

(** For every input without a callable handler (neither a function nor
    an object whose [handler] is a function), [normalise] fails: with the
    thrown string ['unknown datatype, cannot register'] when the input is
    not [undefined] or [null], and with the runtime's [TypeError], raised
    by reading [.handler], when it is. *)
Lemma normalise_invalid d :
  handler_of d = None ->
  (nullish d = false ->
   normalise d = inl (Thrown (PStr "unknown datatype, cannot register"))) /\
  (nullish d = true -> normalise d = inl TypeError).
Proof.
  intros H. rewrite (normalise_not_callable _ H).
  split; intros ->; reflexivity.
Qed.

(** C10. When [register] is given data with no callable handler it throws
    and leaves the whole state (the action table, the environment objects
    and everything else) exactly as it was. *)
Theorem register_invalid_changes_nothing this d name prefix s :
  handler_of d = None ->
  exists e, register this d name prefix s = (inl e, s).
Proof.
  intros H. eexists. apply (register_not_callable _ _ _ _ _ H).
Qed.

Lemma append_inj_l (p a b : string) : p ++ a = p ++ b -> a = b.
Proof.
  induction p as [| c p IH]; cbn [append]; intros H; [assumption |].
  injection H as H. auto.
Qed.

(** C6. [register] without a name returns [prefix + '.' + 'autogenerated-'
    + String(handler)], the prefix being ['auto'] when none is given.
    Registering two actions one after the other and then the first one
    again gives the first name, the second name and the first name again,
    and the two names differ as soon as the texts of the two functions
    differ. *)
Theorem register_autogenerated_names this (a b : @data U) f g name prefix s :
  handler_of a = Some f ->
  handler_of b = Some g ->
  given name = false ->
  let pre := if given prefix then default "" prefix else "auto" in
  let name_f := pre ++ "." ++ "autogenerated-" ++ fn_src f in
  let name_g := pre ++ "." ++ "autogenerated-" ++ fn_src g in
  exists s1 s2 s3,
    register this a name prefix s = (inr name_f, s1) /\
    register this b name prefix s1 = (inr name_g, s2) /\
    register this a name prefix s2 = (inr name_f, s3) /\
    (fn_src f <> fn_src g -> name_f <> name_g).
Proof.
  intros Ha Hb Hn pre name_f name_g.
  do 3 eexists.
  rewrite (register_callable _ _ _ _ _ _ Ha), (register_callable _ _ _ _ _ _ Hb),
    (register_callable _ _ _ _ _ _ Ha).
  unfold full_name_of. rewrite Hn. fold pre. fold name_f. fold name_g.
  repeat split.
  intros Hfg Heq. apply Hfg.
  unfold name_f, name_g in Heq.
  apply append_inj_l in Heq. apply (append_inj_l ".autogenerated-") in Heq.
  exact Heq.
Qed.

(** *** Results on lookup and [call] *)

(** C1. For every name with no entry in the table, [call] raises (the
    runtime's [TypeError]) instead of returning a value, and changes
    nothing. *)
Theorem call_unregistered_raises this (nm : string) (event : option (@Event U))
  env_arg s :
  proto_actions s !! nm = None ->
  call this nm event env_arg s = (inl TypeError, s).
Proof.
  intros H. unfold call, bind, actions_get, lift. rewrite H.
  case_bool_decide; reflexivity.
Qed.

Lemma get_own other (nm : string) s d :
  proto_actions s !! nm = Some d -> get other nm s = (inr (Own d), s).
Proof. intros H. unfold get, actions_get. rewrite H. reflexivity. Qed.

Lemma exists_own other (nm : string) s d :
  proto_actions s !! nm = Some d ->
  exists_ other nm s = (inr (is_defined d), s).
Proof.
  intros H. unfold exists_, bind, actions_get, ret. rewrite H. reflexivity.
Qed.

(** C9. The table is on the prototype. Once [register] on one instance
    has returned a name, [get] and [exists] on any instance, and on any
    instance constructed afterwards, find the registered record under that
    name. *)
Theorem register_seen_by_every_instance this other action name prefix s
  (full : string) s' :
  register this action name prefix s = (inr full, s') ->
  exists record,
    normalise action = inr record /\
    get other full s' = (inr (Own record), s') /\
    exists_ other full s' = (inr true, s') /\
    forall env_arg later s'',
      new_ActionHandler env_arg s' = (inr later, s'') ->
      get later full s'' = (inr (Own record), s'') /\
      exists_ later full s'' = (inr true, s'').
Proof.
  intros H.
  destruct (handler_of action) as [f |] eqn:Hf.
  2: { rewrite (register_not_callable _ _ _ _ _ Hf) in H. discriminate. }
  rewrite (register_callable _ _ _ _ _ _ Hf) in H.
  injection H as <- <-.
  eexists. split; [apply (normalise_callable _ _ Hf) |].
  assert (Hlook : forall w : world,
    proto_actions
      {| proto_actions :=
           <[ full_name_of f name prefix :=
                normal_entry (DFun f) (field action "help") (field action "icon")
                  (field action "help_index") ]> (proto_actions s);
         wld := w |} !! full_name_of f name prefix =
    Some (normal_entry (DFun f) (field action "help") (field action "icon")
            (field action "help_index"))).
  { intros w. cbn [proto_actions]. apply lookup_insert_eq. }
  split; [apply get_own, Hlook |].
  split; [apply (exists_own _ _ _ _ (Hlook _)) |].
  intros env_arg later s'' Hnew.
  assert (Hs'' : exists w, s'' =
    {| proto_actions :=
         <[ full_name_of f name prefix :=
              normal_entry (DFun f) (field action "help") (field action "icon")
                (field action "help_index") ]> (proto_actions s);
       wld := w |}).
  { destruct env_arg as [l |]; cbn in Hnew; injection Hnew as <- <-; eauto. }
  destruct Hs'' as [w ->].
  split; [apply get_own, Hlook | apply (exists_own _ _ _ _ (Hlook _))].
Qed.

(** *** Results on the built-in actions *)

Lemma builtin_entry_handler (wrapper : @raw_handler U -> jsfun) k src :
  get_prop (builtin_entry wrapper k src) "handler" =
    inr (DFun (wrapper (handler src))).
Proof. reflexivity. Qed.

Lemma builtin_entry_help (wrapper : @raw_handler U -> jsfun) k src :
  field (builtin_entry wrapper k src) "help" =
    js_or (read_opt (help src)) (DPrim (PStr (replace_dashes k))).
Proof. reflexivity. Qed.

(** Calling a name whose record carries the function [fn]. *)
Lemma call_own this (nm : string) event env_arg s d fn :
  proto_actions s !! nm = Some d ->
  get_prop d "handler" = inr (DFun fn) ->
  call this nm event env_arg s =
    in_world (fn_run fn (default (env this) env_arg) event) s.
Proof.
  intros Hd Hh. unfold call, bind, actions_get, lift. rewrite Hd, Hh.
  reflexivity.
Qed.

Example replace_dashes_select_next_row :
  replace_dashes "select-next-row" = "select next row".
Proof. reflexivity. Qed.

Lemma replace_dashes_get (t : string) (i : nat) :
  String.get i (replace_dashes t) =
    match String.get i t with
    | Some c => Some (if Ascii.eqb c "-"%char then " "%char else c)
    | None => None
    end.
Proof.
  revert i. induction t as [| c t IH]; intros i; [reflexivity |].
  destruct i as [| i]; [reflexivity |]. apply IH.
Qed.

(** C5. For every built-in action, the stored [help] is a string: the
    [help] of its source definition when it has one, and otherwise the
    string that has, at every position, a space where the base name has a
    dash and the character of the base name where it has another one (and
    that ends where the base name ends). *)
Theorem builtin_help (w : @world U) k src :
  In (k, src) (_actions ++ custom_ignore) ->
  exists d h,
    proto_actions (loaded w) !! ("ipython." ++ k) = Some d /\
    field d "help" = DPrim (PStr h) /\
    match help src with
    | Some explicit => h = explicit
    | None =>
        forall i : nat,
          String.get i h =
            match String.get i k with
            | Some c => Some (if Ascii.eqb c "-"%char then " "%char else c)
            | None => None
            end
    end.
Proof.
  intros H. rewrite loaded_table. apply in_app_or in H as [H | H].
  - exists (builtin_entry simple_wrapper k src).
    assert (Hd := builtin_table_simple _ _ H).
    repeat (destruct H as [[= <- <-] | H];
            [eexists; split; [exact Hd |]; split; [reflexivity |];
             cbn [help]; first [reflexivity | intros i; apply replace_dashes_get] |]).
    destruct H.
  - exists (builtin_entry advanced_wrapper k src).
    assert (Hd := builtin_table_advanced _ _ H).
    repeat (destruct H as [[= <- <-] | H];
            [eexists; split; [exact Hd |]; split; [reflexivity |];
             cbn [help]; first [reflexivity | intros i; apply replace_dashes_get] |]).
    destruct H.
Qed.

(** C3. For every built-in advanced action whose record is still the one
    [fun] built, [call] is exactly the raw handler run on [env || this.env]
    and the event: the same result (or exception) and the same effects,
    with nothing added. *)
Theorem advanced_action_unaltered this k src (event : option (@Event U))
  env_arg s :
  In (k, src) custom_ignore ->
  proto_actions s !! ("ipython." ++ k) =
    proto_actions (loaded (wld s)) !! ("ipython." ++ k) ->
  call this ("ipython." ++ k) event env_arg s =
    in_world (handler src (default (env this) env_arg) event) s.
Proof.
  intros Hin Htab. rewrite loaded_table, (builtin_table_advanced _ _ Hin) in Htab.
  rewrite (call_own _ _ _ _ _ _ _ Htab (builtin_entry_handler _ _ _)).
  reflexivity.
Qed.

(** What the wrapper of a simple action does, by what the raw handler
    does. *)
Lemma simple_wrapper_run (h : @raw_handler U) envl (event : option Event) w :
  fn_run (simple_wrapper h) envl event w =
    match h envl None w with
    | (inl e, w') => (inl e, w')
    | (inr _, w') =>
        (inr (PBool false),
         match event with
         | Some ev => {| envs := envs w'; ui := preventDefault ev (ui w') |}
         | None => w'
         end)
    end.
Proof.
  cbn [fn_run simple_wrapper]. unfold bind.
  destruct (h envl None w) as [[e | v] w']; [reflexivity |].
  destruct event as [ev |]; [reflexivity |].
  destruct w'; reflexivity.
Qed.

(** C2, as the code has it. For every built-in simple action whose record
    is still the one [fun] built, if the raw handler returns on the
    environment, then [call] with an event returns [false] and has called
    the event's [preventDefault], after the raw handler ran. *)
Theorem simple_action_handled this k src (ev : @Event U) env_arg s v w' :
  In (k, src) _actions ->
  proto_actions s !! ("ipython." ++ k) =
    proto_actions (loaded (wld s)) !! ("ipython." ++ k) ->
  handler src (default (env this) env_arg) None (wld s) = (inr v, w') ->
  call this ("ipython." ++ k) (Some ev) env_arg s =
    (inr (PBool false),
     {| proto_actions := proto_actions s;
        wld := {| envs := envs w'; ui := preventDefault ev (ui w') |} |}).
Proof.
  intros Hin Htab Hrun.
  rewrite loaded_table, (builtin_table_simple _ _ Hin) in Htab.
  rewrite (call_own _ _ _ _ _ _ _ Htab (builtin_entry_handler _ _ _)).
  unfold in_world. rewrite simple_wrapper_run, Hrun. reflexivity.
Qed.

(** When the raw handler throws, so does [call], and the wrapper does not
    get to [preventDefault]. *)
Lemma simple_action_throws this k src (event : option (@Event U)) env_arg s e w' :
  In (k, src) _actions ->
  proto_actions s !! ("ipython." ++ k) =
    proto_actions (loaded (wld s)) !! ("ipython." ++ k) ->
  handler src (default (env this) env_arg) None (wld s) = (inl e, w') ->
  call this ("ipython." ++ k) event env_arg s =
    (inl e, {| proto_actions := proto_actions s; wld := w' |}).
Proof.
  intros Hin Htab Hrun.
  rewrite loaded_table, (builtin_table_simple _ _ Hin) in Htab.
  rewrite (call_own _ _ _ _ _ _ _ Htab (builtin_entry_handler _ _ _)).
  unfold in_world. rewrite simple_wrapper_run, Hrun. reflexivity.
Qed.

(** *** The records of the table *)

Lemma js_or_defaulted (v : @data U) : defaulted (js_or v (DPrim (PStr ""))).
Proof.
  unfold js_or, defaulted. destruct (truthy v) eqn:Hv; [right | left]; auto.
Qed.

Lemma normal_entry_normalised (h help icon help_index : @data U) :
  is_function h = true ->
  normalised_record (normal_entry h help icon help_index).
Proof.
  intros Hh. repeat split; [exact Hh | apply js_or_defaulted ..].
Qed.

Lemma read_opt_string_or_undefined (o : option string) :
  string_or_undefined (@read_opt U o).
Proof. destruct o; [left | right]; reflexivity. Qed.

Lemma builtin_entry_builtin (wrapper : @raw_handler U -> jsfun) k src :
  truthy (U:=U) (js_or (read_opt (help src)) (DPrim (PStr (replace_dashes k))))
    = true ->
  builtin_record (builtin_entry wrapper k src).
Proof.
  intros Hhelp. repeat split.
  - rewrite builtin_entry_help.
    unfold js_or. destruct (help src); [| reflexivity].
    cbn [read_opt]. case_match; reflexivity.
  - rewrite builtin_entry_help. exact Hhelp.
  - apply read_opt_string_or_undefined.
  - apply read_opt_string_or_undefined.
Qed.

Lemma fill_shaped (wrapper : @raw_handler U -> jsfun) l t :
  Forall (fun e =>
    truthy (U:=U) (js_or (read_opt (help e.2)) (DPrim (PStr (replace_dashes e.1))))
      = true) l ->
  table_shaped t -> table_shaped (fill wrapper l t).
Proof.
  intros H. revert t. unfold fill.
  induction H as [| [k src] l Hk _ IH]; intros t Ht; [exact Ht |].
  cbn [foldl]. apply IH. apply map_Forall_insert_2; [| exact Ht].
  left. apply builtin_entry_builtin, Hk.
Qed.

Lemma builtin_table_shaped : table_shaped (@builtin_table U).
Proof.
  unfold builtin_table.
  apply fill_shaped; [repeat constructor |].
  apply fill_shaped; [repeat constructor |].
  apply map_Forall_empty.
Qed.

Lemma in_world_table {A} (c : M world A) s :
  proto_actions (in_world c s).2 = proto_actions s.
Proof. unfold in_world. destruct (c (wld s)). reflexivity. Qed.

Lemma call_table this (nm : string) (event : option (@Event U)) env_arg s :
  proto_actions (call this nm event env_arg s).2 = proto_actions s.
Proof.
  unfold call, bind, actions_get, lift.
  destruct (proto_actions s !! nm) as [d |]; [| case_bool_decide; reflexivity].
  destruct (get_prop d "handler") as [e | [p | fn | o]]; try reflexivity.
  apply in_world_table.
Qed.

Lemma register_shaped this d name prefix s :
  table_shaped (proto_actions s) ->
  table_shaped (proto_actions (register this d name prefix s).2).
Proof.
  intros Hs. destruct (handler_of d) as [f |] eqn:Hf.
  - rewrite (register_callable _ _ _ _ _ _ Hf). cbn [snd proto_actions].
    apply map_Forall_insert_2; [| exact Hs].
    right. apply normal_entry_normalised. reflexivity.
  - rewrite (register_not_callable _ _ _ _ _ Hf). exact Hs.
Qed.

Lemma get_name_shaped this d s :
  table_shaped (proto_actions s) ->
  table_shaped (proto_actions (get_name this d s).2).
Proof.
  intros Hs.
  assert (Hreg : forall d',
    table_shaped
      (proto_actions
         (bind (register this d' None None) (fun n => ret (PStr n)) s).2)).
  { intros d'. unfold bind.
    pose proof (register_shaped this d' None None s Hs) as H.
    destruct (register this d' None None s) as [[e | n] s']; exact H. }
  destruct d as [[| | | | nm] | fn | o]; try apply Hreg.
  cbn [get_name]. unfold bind, exists_, bind, actions_get, ret.
  repeat case_match; exact Hs.
Qed.

Lemma serve_shaped (r : request) s :
  table_shaped (proto_actions s) -> table_shaped (proto_actions (serve r s)).
Proof.
  intros Hs. destruct r; cbn [serve].
  - destruct env_arg; exact Hs.
  - unfold extend_env. rewrite in_world_table. exact Hs.
  - apply register_shaped, Hs.
  - apply get_name_shaped, Hs.
  - exact Hs.
  - exact Hs.
  - rewrite call_table. exact Hs.
Qed.

Lemma reachable_shaped s : reachable s -> table_shaped (proto_actions s).
Proof.
  induction 1 as [w | r s _ IH].
  - rewrite loaded_table. apply builtin_table_shaped.
  - apply serve_shaped, IH.
Qed.

End Facts.

(** ** The properties at work on [Page] *)

Import Page.

Example new_handler_on_bare :
  new_ActionHandler None (loaded bare) = (inr handler_one, loaded blank).
Proof. reflexivity. Qed.

Lemma call_unregistered_raises_witness :
  proto_actions (loaded bare) !! "no.such.action" = None /\
  call handler_one "no.such.action" (Some keydown) None (loaded bare) =
    (inl TypeError, loaded bare).
Proof.
  assert (H : proto_actions (loaded bare) !! "no.such.action" = None)
    by (vm_compute; reflexivity).
  split; [exact H |].
  apply (call_unregistered_raises handler_one "no.such.action" (Some keydown)
           None (loaded bare) H).
Defined.

(** [new ActionHandler()] holds the environment [{}]; [enter-row] called
    with an event then throws at [env.notebooklist.get_length_siblings]:
    the call does not return [false] and [preventDefault] is not called. *)
Lemma simple_action_empty_environment :
  (call handler_one "ipython.enter-row" (Some keydown) None (loaded blank)).1 =
    inl TypeError /\
  (call handler_one "ipython.enter-row" (Some keydown) None (loaded blank)).1 <>
    inr (PBool false) /\
  prevented
    (ui (wld (call handler_one "ipython.enter-row" (Some keydown) None
                (loaded blank)).2)) = false.
Proof.
  assert (H : call handler_one "ipython.enter-row" (Some keydown) None
                (loaded blank) = (inl TypeError, loaded blank)).
  { apply (simple_action_throws handler_one "enter-row" enter_row_source
              (Some keydown) None (loaded blank) TypeError blank).
    - left. reflexivity.
    - reflexivity.
    - reflexivity. }
  rewrite H. repeat split. discriminate.
Qed.

Lemma simple_action_handled_witness :
  In ("enter-row", enter_row_source) _actions /\
  proto_actions (loaded listing) !! "ipython.enter-row" =
    proto_actions (loaded (wld (loaded listing))) !! "ipython.enter-row" /\
  handler enter_row_source 1%positive None listing = (inr PUndefined, listing_opened) /\
  call handler_one "ipython.enter-row" (Some keydown) None (loaded listing) =
    (inr (PBool false),
     {| proto_actions := proto_actions (loaded listing);
        wld := {| envs := envs listing_opened;
                  ui := preventDefault keydown (ui listing_opened) |} |}).
Proof.
  assert (Hin : In ("enter-row", enter_row_source) _actions)
    by (left; reflexivity).
  assert (Hrun : handler enter_row_source 1%positive None listing =
                   (inr PUndefined, listing_opened)) by reflexivity.
  split; [exact Hin |]. split; [reflexivity |]. split; [exact Hrun |].
  exact (simple_action_handled handler_one "enter-row" enter_row_source keydown
           None (loaded listing) PUndefined listing_opened Hin eq_refl Hrun).
Defined.

Lemma advanced_action_unaltered_witness :
  In ("ignore", ignore_source) custom_ignore /\
  proto_actions (loaded bare) !! "ipython.ignore" =
    proto_actions (loaded (wld (loaded bare))) !! "ipython.ignore" /\
  call handler_one "ipython.ignore" (Some keydown) None (loaded bare) =
    (inr (PBool true), loaded bare).
Proof.
  assert (Hin : In ("ignore", ignore_source) custom_ignore)
    by (left; reflexivity).
  split; [exact Hin |]. split; [reflexivity |].
  exact (eq_trans
           (advanced_action_unaltered handler_one "ignore" ignore_source
              (Some keydown) None (loaded bare) Hin eq_refl)
           eq_refl).
Defined.


Lemma builtin_help_witness :
  In ("move-cursor-up-or-previous-cell", move_cursor_up_source)
    (_actions ++ custom_ignore) /\
  exists d,
    proto_actions (loaded bare) !! "ipython.move-cursor-up-or-previous-cell" = Some d /\
    field d "help" = DPrim (PStr "move cursor up or previous cell").
Proof.
  assert (Hin : In ("move-cursor-up-or-previous-cell", move_cursor_up_source)
                  (_actions ++ custom_ignore))
    by (do 4 right; left; reflexivity).
  split; [exact Hin |].
  destruct (builtin_help bare "move-cursor-up-or-previous-cell"
              move_cursor_up_source Hin) as (d & h & Hd & Hh & Hget).
  cbn [help move_cursor_up_source] in Hget.
  assert (Hstr : h = "move cursor up or previous cell").
  { apply String.get_correct. intros n. rewrite Hget. symmetry.
    apply (replace_dashes_get "move-cursor-up-or-previous-cell" n). }
  exists d. split; [exact Hd |]. rewrite Hh, Hstr. reflexivity.
Defined.

Lemma register_autogenerated_names_witness :
  fn_src noop <> fn_src yes /\
  exists s1 s2 s3,
    register handler_one (DFun noop) None None (loaded bare) =
      (inr "auto.autogenerated-function () {}", s1) /\
    register handler_one (DFun yes) None None s1 =
      (inr "auto.autogenerated-function () { return true; }", s2) /\
    register handler_one (DFun noop) None None s2 =
      (inr "auto.autogenerated-function () {}", s3) /\
    "auto.autogenerated-function () {}" <>
      "auto.autogenerated-function () { return true; }".
Proof.
  assert (Hne : fn_src noop <> fn_src yes) by discriminate.
  split; [exact Hne |].
  destruct (register_autogenerated_names handler_one (DFun noop) (DFun yes)
              noop yes None None (loaded bare) eq_refl eq_refl eq_refl)
    as (s1 & s2 & s3 & H1 & H2 & H3 & H4).
  exists s1, s2, s3.
  split; [exact H1 |]. split; [exact H2 |]. split; [exact H3 |].
  exact (H4 Hne).
Defined.

(** C8, where the code departs from it. [normalise(undefined)] and
    [normalise(null)] do not reach the [throw] of [normalise]: reading
    [.handler] raises the runtime's [TypeError] first.  The other inputs
    with no callable handler, such as [42], ['abc'] and [{}], fail with
    the thrown string ['unknown datatype, cannot register']. *)
Theorem normalise_nullish_type_error :
  normalise (U:=page) (DPrim PUndefined) = inl TypeError /\
  normalise (U:=page) (DPrim PNull) = inl TypeError /\
  normalise (U:=page) (DPrim (PNum 42)) =
    inl (Thrown (PStr "unknown datatype, cannot register")) /\
  normalise (U:=page) (DPrim (PStr "abc")) =
    inl (Thrown (PStr "unknown datatype, cannot register")) /\
  normalise (U:=page) (DObj ∅) =
    inl (Thrown (PStr "unknown datatype, cannot register")) /\
  inl TypeError <>
    (inl (Thrown (PStr "unknown datatype, cannot register")) : result (@data page)).
Proof. repeat split. discriminate. Qed.

Lemma normalise_invalid_witness :
  handler_of (U:=page) (DObj ∅) = None /\
  nullish (U:=page) (DObj ∅) = false /\
  normalise (U:=page) (DObj ∅) =
    inl (Thrown (PStr "unknown datatype, cannot register")).
Proof.
  split; [reflexivity |]. split; [reflexivity |].
  exact (proj1 (normalise_invalid (U:=page) (DObj ∅) eq_refl) eq_refl).
Defined.

Lemma register_invalid_changes_nothing_witness :
  handler_of (U:=page) (DObj ∅) = None /\
  exists e, register handler_one (DObj ∅) None None (loaded listing) =
              (inl e, loaded listing).
Proof.
  split; [reflexivity |].
  exact (register_invalid_changes_nothing handler_one (DObj ∅) None None
           (loaded listing) eq_refl).
Defined.

Lemma register_seen_by_every_instance_witness :
  register handler_one (DFun noop) None None (loaded bare) =
    (inr "auto.autogenerated-function () {}",
     (register handler_one (DFun noop) None None (loaded bare)).2) /\
  exists record,
    normalise (DFun noop) = inr record /\
    get handler_two "auto.autogenerated-function () {}"
      (register handler_one (DFun noop) None None (loaded bare)).2 =
      (inr (Own record), (register handler_one (DFun noop) None None (loaded bare)).2) /\
    exists_ handler_two "auto.autogenerated-function () {}"
      (register handler_one (DFun noop) None None (loaded bare)).2 =
      (inr true, (register handler_one (DFun noop) None None (loaded bare)).2).
Proof.
  assert (H : register handler_one (DFun noop) None None (loaded bare) =
    (inr "auto.autogenerated-function () {}",
     (register handler_one (DFun noop) None None (loaded bare)).2))
    by reflexivity.
  split; [exact H |].
  destruct (register_seen_by_every_instance handler_one handler_two (DFun noop)
              None None (loaded bare) _ _ H) as (record & Hn & Hg & He & _).
  exists record.
  split; [exact Hn |]. split; [exact Hg | exact He].
Defined.

(** ** Further properties of the methods *)

Section MoreFacts.

Context {U : Type}.

Implicit Types (d action : @data U) (f g : @jsfun U) (s : @state U)
  (this other : ActionHandler) (name prefix : option string)
  (k : string) (src : @action_source U) (nm : string).

(** *** [extend_env] and the constructor *)

Lemma assigned_plain (held e : gmap string (@handle U)) :
  e !! "__proto__" = None -> assigned held e = e.
Proof.
  intros He. unfold assigned. case_bool_decide; [reflexivity |].
  apply delete_id, He.
Qed.

(** X1. After [extend_env] with an argument that has no ['__proto__'] key,
    the held environment has, under each key, the value of the argument
    when the argument has the key and its former value otherwise; the
    table, the user interface and every other environment object are as
    they were. *)
Theorem extend_env_lookup this (e held : gmap string (@handle U)) s k :
  envs (wld s) !! env this = Some held ->
  e !! "__proto__" = None ->
  exists s',
    extend_env this e s = (inr tt, s') /\
    (envs (wld s') !! env this ≫= fun o => o !! k) =
      match e !! k with
      | Some v => Some v
      | None => held !! k
      end /\
    (forall l, l <> env this -> envs (wld s') !! l = envs (wld s) !! l) /\
    proto_actions s' = proto_actions s /\
    ui (wld s') = ui (wld s).
Proof.
  intros Hheld He. eexists. split; [reflexivity |].
  cbn [wld envs proto_actions ui]. repeat split.
  - rewrite lookup_alter_eq, Hheld. cbn. rewrite (assigned_plain _ _ He).
    rewrite lookup_union. destruct (e !! k), (held !! k); reflexivity.
  - intros l Hl. apply lookup_alter_ne. congruence.
Qed.

(** X2. Two [extend_env] in a row, with arguments that have no
    ['__proto__'] key, are one [extend_env] with the second argument laid
    over the first. *)
Theorem extend_env_twice this (e1 e2 : gmap string (@handle U)) s :
  e1 !! "__proto__" = None ->
  e2 !! "__proto__" = None ->
  extend_env this e2 (extend_env this e1 s).2 = extend_env this (e2 ∪ e1) s.
Proof.
  intros H1 H2.
  assert (H12 : (e2 ∪ e1) !! "__proto__" = None)
    by (apply lookup_union_None; split; assumption).
  unfold extend_env, in_world. cbn.
  do 3 f_equal.
  rewrite alter_alter_eq. apply alter_ext.
  intros held _. cbn.
  rewrite (assigned_plain _ _ H1), (assigned_plain _ _ H2), (assigned_plain _ _ H12).
  apply map_union_assoc.
Qed.

(** X3. [new ActionHandler()] holds a new, empty environment object: its
    address was not in use, every environment object that was there is
    untouched, and so are the table and the user interface. *)
Theorem new_ActionHandler_fresh s :
  exists this s',
    new_ActionHandler None s = (inr this, s') /\
    envs (wld s) !! env this = None /\
    envs (wld s') !! env this = Some ∅ /\
    (forall l, l <> env this -> envs (wld s') !! l = envs (wld s) !! l) /\
    proto_actions s' = proto_actions s /\
    ui (wld s') = ui (wld s).
Proof.
  do 2 eexists. split; [reflexivity |].
  cbn [env wld envs proto_actions ui]. repeat split.
  - apply not_elem_of_dom, is_fresh.
  - apply lookup_insert_eq.
  - intros l Hl. apply lookup_insert_ne. congruence.
Qed.

(** *** [get_name] *)

(** X4. Given a string, [get_name] answers like [exists]: the string
    itself when [exists] says [true], [null] when it says [false]. It
    never throws there and never changes anything. *)
Theorem get_name_of_string this nm s :
  exists b : bool,
    exists_ this nm s = (inr b, s) /\
    get_name this (DPrim (PStr nm)) s =
      (inr (if b then PStr nm else PNull), s).
Proof.
  cbn [get_name]. unfold bind, exists_, bind, actions_get, ret.
  destruct (proto_actions s !! nm) as [d |].
  - exists (is_defined d). split; [reflexivity |].
    destruct (is_defined d); reflexivity.
  - case_bool_decide.
    + exists true. split; reflexivity.
    + exists false. split; reflexivity.
Qed.

(** X5. Given an action with a callable handler, [get_name] registers it
    under its generated name and returns that name; asking for the
    returned name afterwards, on any instance, gives the same name back
    and changes nothing. *)
Theorem get_name_round_trip this other d f s :
  handler_of d = Some f ->
  exists s',
    get_name this d s = (inr (PStr (full_name_of f None None)), s') /\
    register this d None None s = (inr (full_name_of f None None), s') /\
    get_name other (DPrim (PStr (full_name_of f None None))) s' =
      (inr (PStr (full_name_of f None None)), s').
Proof.
  intros Hf. eexists.
  assert (Hget : get_name this d s =
    bind (register this d None None) (fun n => ret (PStr n)) s).
  { destruct d as [[| | | | str] | f' | o]; try reflexivity. discriminate. }
  rewrite Hget. unfold bind at 1.
  rewrite (register_callable _ _ _ _ _ _ Hf).
  split; [reflexivity |]. split; [reflexivity |].
  cbn [get_name]. unfold bind, exists_, bind, actions_get, ret.
  cbn [proto_actions]. rewrite lookup_insert_eq. reflexivity.
Qed.

(** X6. Given anything that is neither a string nor an action with a
    callable handler, [get_name] throws what [normalise] throws (the
    runtime's [TypeError] for [undefined] and [null], the string
    ['unknown datatype, cannot register'] otherwise) and changes
    nothing. *)
Theorem get_name_invalid this d s :
  is_string d = false ->
  handler_of d = None ->
  get_name this d s =
    (inl (if nullish d then TypeError
          else Thrown (PStr "unknown datatype, cannot register")), s).
Proof.
  intros Hstr Hf.
  assert (Hget : get_name this d s =
    bind (register this d None None) (fun n => ret (PStr n)) s).
  { destruct d as [[| | | | str] | f' | o]; try reflexivity. discriminate. }
  rewrite Hget. unfold bind.
  rewrite (register_not_callable _ _ _ _ _ Hf). reflexivity.
Qed.

(** *** [register], then [get], [exists] and [call] *)

(** X7. Whatever was in the table, once an action with the callable
    handler [f] is registered, [call] with the returned name, on any
    instance, is [f] run on [env || this.env] and the event: an entry
    that was there under that name, built-in or not, is replaced. *)
Theorem register_then_call this other d f name prefix
  (event : option (@Event U)) env_arg s :
  handler_of d = Some f ->
  exists full s',
    register this d name prefix s = (inr full, s') /\
    call other full event env_arg s' =
      in_world (fn_run f (default (env other) env_arg) event) s'.
Proof.
  intros Hf. do 2 eexists.
  rewrite (register_callable _ _ _ _ _ _ Hf). split; [reflexivity |].
  apply (call_own _ _ _ _ _
           (normal_entry (DFun f) (field d "help") (field d "icon")
              (field d "help_index"))).
  - cbn [proto_actions]. apply lookup_insert_eq.
  - reflexivity.
Qed.

(** X8. [register] touches one name only: every name other than the one
    it returns keeps its entry, and the environments and the user
    interface are as they were. *)
Theorem register_other_names this d name prefix s (r : result string) s' nm :
  register this d name prefix s = (r, s') ->
  r <> inr nm ->
  proto_actions s' !! nm = proto_actions s !! nm /\ wld s' = wld s.
Proof.
  intros Hreg Hne. destruct (handler_of d) as [f |] eqn:Hf.
  - rewrite (register_callable _ _ _ _ _ _ Hf) in Hreg.
    injection Hreg as <- <-. cbn [proto_actions wld]. split; [| reflexivity].
    apply lookup_insert_ne. intros Heq. apply Hne. rewrite Heq. reflexivity.
  - rewrite (register_not_callable _ _ _ _ _ Hf) in Hreg.
    injection Hreg as <- <-. split; reflexivity.
Qed.

(** X9. Two functions with the same text collide: registered without a
    name one after the other they get the same name, and the second
    replaces the first, so [call] with that name runs the second. *)
Theorem register_same_text_collides this other (a b : @data U) f g prefix
  (event : option (@Event U)) env_arg s :
  handler_of a = Some f ->
  handler_of b = Some g ->
  fn_src f = fn_src g ->
  exists n s1 s2,
    register this a None prefix s = (inr n, s1) /\
    register this b None prefix s1 = (inr n, s2) /\
    call other n event env_arg s2 =
      in_world (fn_run g (default (env other) env_arg) event) s2.
Proof.
  intros Ha Hb Hsrc. do 3 eexists.
  rewrite (register_callable _ _ _ _ _ _ Ha), (register_callable _ _ _ _ _ _ Hb).
  assert (Hn : full_name_of f None prefix = full_name_of g None prefix).
  { unfold full_name_of. rewrite Hsrc. reflexivity. }
  rewrite Hn.
  split; [reflexivity |]. split; [reflexivity |].
  apply (call_own _ _ _ _ _
           (normal_entry (DFun g) (field b "help") (field b "icon")
              (field b "help_index"))).
  - cbn [proto_actions]. apply lookup_insert_eq.
  - reflexivity.
Qed.

(** *** The names of the table *)

Lemma has_dot_app (p n : string) : has_dot (p ++ "." ++ n) = true.
Proof.
  remember ("." ++ n) as tail eqn:Htail.
  induction p as [| c p IH].
  - subst tail. reflexivity.
  - change (has_dot (String c (p ++ tail)) = true). cbn [has_dot].
    rewrite IH. apply orb_true_r.
Qed.

Lemma has_dot_full_name f name prefix : has_dot (full_name_of f name prefix) = true.
Proof. apply has_dot_app. Qed.

Lemma has_dot_not_inherited nm : has_dot nm = true -> nm ∉ @object_prototype.
Proof.
  intros Hdot Hin. unfold object_prototype in Hin.
  repeat (apply elem_of_cons in Hin as [-> | Hin]; [discriminate |]).
  apply elem_of_nil in Hin. exact Hin.
Qed.

(** Each request leaves the table as it is, or stores one record made by
    [normalise] under a name made by [register]. *)
Lemma serve_table (r : @request U) s :
  proto_actions (serve r s) = proto_actions s \/
  exists f name prefix help icon help_index,
    proto_actions (serve r s) =
      <[ full_name_of f name prefix := normal_entry (DFun f) help icon help_index ]>
        (proto_actions s).
Proof.
  assert (Hreg : forall this d name prefix,
    proto_actions (register this d name prefix s).2 = proto_actions s \/
    exists f name' prefix' help icon help_index,
      proto_actions (register this d name prefix s).2 =
        <[ full_name_of f name' prefix' := normal_entry (DFun f) help icon help_index ]>
          (proto_actions s)).
  { intros this d name prefix. destruct (handler_of d) as [f |] eqn:Hf.
    - right. rewrite (register_callable _ _ _ _ _ _ Hf). eauto 10.
    - left. rewrite (register_not_callable _ _ _ _ _ Hf). reflexivity. }
  destruct r; cbn [serve].
  - left. destruct env_arg; reflexivity.
  - left. unfold extend_env. apply in_world_table.
  - apply Hreg.
  - assert (Hget : forall d',
      proto_actions
        (bind (register this d' None None) (fun n => ret (PStr n)) s).2 =
      proto_actions (register this d' None None s).2).
    { intros d'. unfold bind.
      destruct (register this d' None None s) as [[e | n] s']; reflexivity. }
    destruct name_or_data as [[| | | | str] | fn | o];
      try (cbn [get_name]; rewrite Hget; apply Hreg).
    left. cbn [get_name]. unfold bind, exists_, bind, actions_get, ret.
    repeat case_match; reflexivity.
  - left. reflexivity.
  - left. reflexivity.
  - left. apply call_table.
Qed.

Lemma reachable_dotted s :
  reachable s -> map_Forall (fun nm (_ : @data U) => has_dot nm = true) (proto_actions s).
Proof.
  induction 1 as [w | r s _ IH].
  - rewrite loaded_table. unfold builtin_table, fill, custom_ignore, _actions.
    cbn [foldl fst snd append].
    repeat (apply map_Forall_insert_2; [reflexivity |]).
    apply map_Forall_empty.
  - destruct (serve_table r s) as [-> | (f & name & prefix & h & i & hi & ->)];
      [exact IH |].
    apply map_Forall_insert_2; [apply has_dot_full_name | exact IH].
Qed.

(** X10. In every state the calls lead to, every name of the table has a
    dot in it, so none is a name that objects inherit from
    [Object.prototype]. *)
Theorem reachable_names_dotted s nm d :
  reachable s ->
  proto_actions s !! nm = Some d ->
  has_dot nm = true /\ nm ∉ @object_prototype.
Proof.
  intros Hs Hd. pose proof (reachable_dotted s Hs nm d Hd) as Hdot.
  split; [exact Hdot | apply has_dot_not_inherited, Hdot].
Qed.

Lemma fill_lookup (wrapper : @raw_handler U -> jsfun) l t nm d :
  fill wrapper l t !! nm = Some d ->
  (exists k src, In (k, src) l /\ nm = "ipython." ++ k /\
                 d = builtin_entry wrapper k src) \/
  t !! nm = Some d.
Proof.
  unfold fill. revert t.
  induction l as [| [k src] l IH]; intros t H; [right; exact H |].
  cbn [foldl fst snd] in H. apply IH in H as [(k' & src' & Hin & -> & ->) | H].
  - left. exists k', src'. split; [right; exact Hin | split; reflexivity].
  - apply lookup_insert_Some in H as [[<- <-] | [_ H]].
    + left. exists k, src. split; [left; reflexivity | split; reflexivity].
    + right. exact H.
Qed.

(** X11. The table [fun] builds has no other entries than the built-in
    ones: each of its names is ['ipython.'] followed by a key of
    [_actions], with that entry's record wrapped as a simple action, or by
    a key of [custom_ignore], with that entry's record wrapped as an
    advanced action. *)
Theorem loaded_entries (w : @world U) nm d :
  proto_actions (loaded w) !! nm = Some d ->
  exists k src,
    nm = "ipython." ++ k /\
    ((In (k, src) _actions /\ d = builtin_entry simple_wrapper k src) \/
     (In (k, src) custom_ignore /\ d = builtin_entry advanced_wrapper k src)).
Proof.
  rewrite loaded_table. unfold builtin_table. intros H.
  apply fill_lookup in H as [(k & src & Hin & -> & ->) | H].
  { exists k, src. split; [reflexivity | right; split; [exact Hin | reflexivity]]. }
  apply fill_lookup in H as [(k & src & Hin & -> & ->) | H].
  { exists k, src. split; [reflexivity | left; split; [exact Hin | reflexivity]]. }
  rewrite lookup_empty in H. discriminate.
Qed.

(** *** The records the registry stores *)










(** *** Lookups in the states the calls lead to *)

Lemma shaped_handler d :
  builtin_record d \/ normalised_record d ->
  exists f, get_prop d "handler" = inr (DFun f) /\ is_defined d = true.
Proof.
  intros H.
  assert (Hfun : is_function (field d "handler") = true)
    by (destruct H as [H | H]; apply H).
  destruct d as [p | f' | o]; try discriminate.
  cbn [field] in Hfun. cbn [get_prop].
  destruct (default (DPrim PUndefined) (o !! "handler")) as [p | f | o'];
    try discriminate.
  exists f. split; reflexivity.
Qed.


(** X13. In every state the calls lead to, and for every name that is
    not inherited from [Object.prototype], [exists] says [true] exactly
    when the table has an entry under the name. *)
Theorem exists_exact this nm s :
  reachable s ->
  nm ∉ @object_prototype ->
  exists b : bool,
    exists_ this nm s = (inr b, s) /\
    (b = true <-> is_Some (proto_actions s !! nm)).
Proof.
  intros Hs Hnm. unfold exists_, bind, actions_get, ret.
  destruct (proto_actions s !! nm) as [d |] eqn:Hd.
  - destruct (shaped_handler d (reachable_shaped s Hs nm d Hd)) as (f & _ & Hdef).
    exists true. rewrite Hdef. split; [reflexivity |]. split; eauto.
  - rewrite bool_decide_eq_false_2 by exact Hnm.
    exists false. split; [reflexivity |].
    split; [discriminate | intros [x Hx]; discriminate].
Qed.

(** X14. In every state the calls lead to, a name inherited from
    [Object.prototype] (['constructor'], ['toString'], ...) is reported by
    [exists] as present although no action has it, [get] gives the
    inherited member, and [call] raises a [TypeError]. *)
Theorem inherited_names this nm (event : option (@Event U)) env_arg s :
  reachable s ->
  nm ∈ @object_prototype ->
  proto_actions s !! nm = None /\
  exists_ this nm s = (inr true, s) /\
  get this nm s = (inr (Inherited nm), s) /\
  call this nm event env_arg s = (inl TypeError, s).
Proof.
  intros Hs Hnm.
  assert (Hnone : proto_actions s !! nm = None).
  { destruct (proto_actions s !! nm) as [d |] eqn:Hd; [| reflexivity].
    exfalso. apply (has_dot_not_inherited nm); [| exact Hnm].
    apply (reachable_dotted s Hs nm d Hd). }
  split; [exact Hnone |].
  unfold exists_, get, call, bind, actions_get, ret, lift. rewrite Hnone.
  rewrite bool_decide_eq_true_2 by exact Hnm. repeat split.
Qed.

(** *** [normalise], again *)

Lemma js_or_idem (v e : @data U) : js_or (js_or v e) e = js_or v e.
Proof.
  unfold js_or. destruct (truthy v) eqn:Hv; [rewrite Hv; reflexivity |].
  destruct (truthy e); reflexivity.
Qed.

Lemma normal_entry_fields (h help icon help_index : @data U) :
  field (normal_entry h help icon help_index) "help" = js_or help (DPrim (PStr "")) /\
  field (normal_entry h help icon help_index) "icon" = js_or icon (DPrim (PStr "")) /\
  field (normal_entry h help icon help_index) "help_index" =
    js_or help_index (DPrim (PStr "")).
Proof. repeat split. Qed.

(** X15. [normalise] is idempotent: a record it returned is returned
    unchanged when normalised again. *)
Theorem normalise_idempotent d (r : @data U) :
  normalise d = inr r -> normalise r = inr r.
Proof.
  intros H. destruct (handler_of d) as [f |] eqn:Hf.
  2: { rewrite (normalise_not_callable _ Hf) in H. discriminate. }
  rewrite (normalise_callable _ _ Hf) in H. injection H as <-.
  rewrite (normalise_callable
             (normal_entry (DFun f) (field d "help") (field d "icon")
                (field d "help_index")) f eq_refl).
  destruct (normal_entry_fields (DFun f) (field d "help") (field d "icon")
              (field d "help_index")) as (-> & -> & ->).
  unfold normal_entry. rewrite !js_or_idem. reflexivity.
Qed.

(** X16. [normalise] removes unknown attributes: the record it returns
    has the four keys [handler], [help], [icon] and [help_index] and no
    other. *)
Theorem normalise_keys d (r : @data U) :
  normalise d = inr r ->
  exists o,
    r = DObj o /\
    dom o = ({[ "handler"; "help"; "icon"; "help_index" ]} : gset string).
Proof.
  intros H. destruct (handler_of d) as [f |] eqn:Hf.
  2: { rewrite (normalise_not_callable _ Hf) in H. discriminate. }
  rewrite (normalise_callable _ _ Hf) in H. injection H as <-.
  eexists. split; [reflexivity |].
  rewrite !dom_insert_L, dom_empty_L. set_solver.
Qed.

(** *** The built-in handlers *)

Lemma nl_call_missing {A} envl (m : @NotebookList U -> M U A) w :
  no_notebooklist envl w -> nl_call envl m w = (inl TypeError, w).
Proof.
  intros H. unfold nl_call, bind, env_prop.
  destruct (envs w !! envl ≫= fun o => o !! "notebooklist") as [[nl | nb | p] |] eqn:Hh;
    try reflexivity.
  exfalso. exact (H nl Hh).
Qed.

Lemma nb_call_missing {A} envl (m : @Notebook U -> M U A) w :
  no_notebook envl w -> nb_call envl m w = (inl TypeError, w).
Proof.
  intros H. unfold nb_call, bind, env_prop.
  destruct (envs w !! envl ≫= fun o => o !! "notebook") as [[nl | nb | p] |] eqn:Hh;
    try reflexivity.
  exfalso. exact (H nb Hh).
Qed.

(** X17. On an environment that holds no file list under [notebooklist],
    calling a built-in simple action throws a [TypeError] and changes
    nothing: the event, if any, does not get [preventDefault]. *)
Theorem simple_action_needs_notebooklist this k src (event : option (@Event U))
  env_arg s :
  In (k, src) _actions ->
  proto_actions s !! ("ipython." ++ k) =
    proto_actions (loaded (wld s)) !! ("ipython." ++ k) ->
  no_notebooklist (default (env this) env_arg) (wld s) ->
  call this ("ipython." ++ k) event env_arg s = (inl TypeError, s).
Proof.
  intros Hin Htab Hno.
  rewrite (simple_action_throws this k src event env_arg s TypeError (wld s) Hin Htab).
  - destruct s; reflexivity.
  - repeat (destruct Hin as [[= <- <-] | Hin];
            [cbn [handler];
             unfold enter_row, select_previous_row, select_next_row;
             unfold bind at 1; rewrite (nl_call_missing _ _ _ Hno); reflexivity |]).
    destruct Hin.
Qed.

(** X18. The four scroll actions suppress the event's default first: on
    an environment that holds no notebook, calling one with an event
    throws a [TypeError] after [preventDefault] was called. *)
Theorem scroll_actions_prevent_first this k (ev : @Event U) env_arg s :
  In k ["scroll-down"; "scroll-up"; "scroll-cell-center"; "scroll-cell-top"] ->
  proto_actions s !! ("ipython." ++ k) =
    proto_actions (loaded (wld s)) !! ("ipython." ++ k) ->
  no_notebook (default (env this) env_arg) (wld s) ->
  call this ("ipython." ++ k) (Some ev) env_arg s =
    (inl TypeError,
     {| proto_actions := proto_actions s;
        wld := {| envs := envs (wld s); ui := preventDefault ev (ui (wld s)) |} |}).
Proof.
  intros Hin Htab Hno. rewrite loaded_table in Htab.
  assert (Hrun : forall src,
    In (k, src) custom_ignore ->
    handler src (default (env this) env_arg) (Some ev) (wld s) =
      (inl TypeError,
       {| envs := envs (wld s); ui := preventDefault ev (ui (wld s)) |}) ->
    call this ("ipython." ++ k) (Some ev) env_arg s =
      (inl TypeError,
       {| proto_actions := proto_actions s;
          wld := {| envs := envs (wld s); ui := preventDefault ev (ui (wld s)) |} |})).
  { intros src Hsrc Hh. rewrite (builtin_table_advanced _ _ Hsrc) in Htab.
    rewrite (call_own _ _ _ _ _ _ _ Htab (builtin_entry_handler _ _ _)).
    unfold in_world. cbn [fn_run advanced_wrapper]. rewrite Hh. reflexivity. }
  assert (Hno' : no_notebook (default (env this) env_arg)
                   {| envs := envs (wld s); ui := preventDefault ev (ui (wld s)) |})
    by exact Hno.
  destruct Hin as [<- | [<- | [<- | [<- | []]]]].
  - apply (Hrun {| help := None; help_index := None; icon := None;
                   handler := scroll_down |}); [do 3 right; left; reflexivity |].
    cbn [handler]. unfold scroll_down, scroll_by, bind, prevent_default, on_ui.
    rewrite (nb_call_missing _ _ _ Hno'). reflexivity.
  - apply (Hrun {| help := None; help_index := None; icon := None;
                   handler := scroll_up |}); [do 4 right; left; reflexivity |].
    cbn [handler]. unfold scroll_up, scroll_by, bind, prevent_default, on_ui.
    rewrite (nb_call_missing _ _ _ Hno'). reflexivity.
  - apply (Hrun {| help := Some "Scroll the current cell to the center";
                   help_index := None; icon := None;
                   handler := scroll_cell_center |});
      [do 5 right; left; reflexivity |].
    cbn [handler]. unfold scroll_cell_center, bind, prevent_default, on_ui.
    rewrite (nb_call_missing _ _ _ Hno'). reflexivity.
  - apply (Hrun {| help := Some "Scroll the current cell to the top";
                   help_index := None; icon := None;
                   handler := scroll_cell_top |});
      [do 6 right; left; reflexivity |].
    cbn [handler]. unfold scroll_cell_top, bind, prevent_default, on_ui.
    rewrite (nb_call_missing _ _ _ Hno'). reflexivity.
Qed.

Lemma bind_returns {S A B} (c : M S A) (h : A -> M S B) st v st' :
  bind c h st = (inr v, st') ->
  exists a st1, c st = (inr a, st1) /\ h a st1 = (inr v, st').
Proof.
  unfold bind. destruct (c st) as [[e | a] st1]; [discriminate |]. eauto.
Qed.

Ltac through_binds H :=
  repeat (let a := fresh "a" in
          let st := fresh "st" in
          let Hc := fresh "Hc" in
          apply bind_returns in H as (a & st & Hc & H); clear Hc).

(** X19. The two cursor actions and [save-notebook] never say that they
    ignored the event: whenever calling one returns, it returns
    [false]. *)
Theorem cursor_and_save_return_false this k (event : option (@Event U))
  env_arg s v s' :
  In k ["move-cursor-up-or-previous-cell"; "move-cursor-down-or-next-cell";
        "save-notebook"] ->
  proto_actions s !! ("ipython." ++ k) =
    proto_actions (loaded (wld s)) !! ("ipython." ++ k) ->
  call this ("ipython." ++ k) event env_arg s = (inr v, s') ->
  v = PBool false.
Proof.
  intros Hin Htab Hcall. rewrite loaded_table in Htab.
  assert (Hrun : forall src,
    In (k, src) custom_ignore ->
    exists w', handler src (default (env this) env_arg) event (wld s) = (inr v, w')).
  { intros src Hsrc. rewrite (builtin_table_advanced _ _ Hsrc) in Htab.
    rewrite (call_own _ _ _ _ _ _ _ Htab (builtin_entry_handler _ _ _)) in Hcall.
    unfold in_world in Hcall. cbn [fn_run advanced_wrapper] in Hcall.
    destruct (handler src (default (env this) env_arg) event (wld s)) as [r w'].
    injection Hcall as -> _. eauto. }
  destruct Hin as [<- | [<- | [<- | []]]].
  - destruct (Hrun {| help := None; help_index := None; icon := None;
                      handler := move_cursor_up_or_previous_cell |})
      as [w' H]; [do 1 right; left; reflexivity |].
    cbn [handler] in H. unfold move_cursor_up_or_previous_cell in H.
    through_binds H. injection H as <- _. reflexivity.
  - destruct (Hrun {| help := None; help_index := None; icon := None;
                      handler := move_cursor_down_or_next_cell |})
      as [w' H]; [do 2 right; left; reflexivity |].
    cbn [handler] in H. unfold move_cursor_down_or_next_cell in H.
    through_binds H. injection H as <- _. reflexivity.
  - destruct (Hrun {| help := Some "Save and Checkpoint"; help_index := Some "fb";
                      icon := Some "fa-save"; handler := save_notebook |})
      as [w' H]; [do 7 right; left; reflexivity |].
    cbn [handler] in H. unfold save_notebook in H.
    through_binds H. injection H as <- _. reflexivity.
Qed.

Lemma nl_call_present {A} envl (m : @NotebookList U -> M U A) w nl :
  envs w !! envl ≫= (fun o => o !! "notebooklist") = Some (HNotebookList nl) ->
  nl_call envl m w = on_ui (m nl) w.
Proof. intros H. unfold nl_call, bind, env_prop. rewrite H. reflexivity. Qed.

(** X20. [select-previous-row], on a file list whose queries only read,
    either leaves the list alone or selects exactly one row, and never a
    row below 0. *)
Theorem select_previous_row_bound envl (event : option (@Event U))
  (ws : gmap loc (gmap string handle)) u nl :
  ws !! envl ≫= (fun o => o !! "notebooklist") = Some (HNotebookList nl) ->
  reads_only nl ->
  select_previous_row envl event {| envs := ws; ui := u |} =
    (inr PUndefined, {| envs := ws; ui := u |}) \/
  exists j,
    0 <= j /\
    select_previous_row envl event {| envs := ws; ui := u |} =
      bind (on_ui (select_row nl j)) (fun _ => ret PUndefined)
        {| envs := ws; ui := u |}.
Proof.
  intros Henv [Hlen Hidx].
  destruct (Hlen ".focus" u) as [focused Hfocused].
  destruct (Hidx u) as [index Hindex].
  remember (select_previous_row envl event {| envs := ws; ui := u |}) as run eqn:Hrun.
  unfold select_previous_row in Hrun. unfold bind at 1 in Hrun.
  rewrite (nl_call_present _ _ {| envs := ws; ui := u |} nl Henv) in Hrun.
  unfold on_ui at 1 in Hrun. cbn [ui envs] in Hrun. rewrite Hfocused in Hrun.
  destruct (0 <? focused) eqn:Hpos; cbn [when] in Hrun.
  - assert (Hz : (focused =? 0) = false) by lia. rewrite Hz in Hrun.
    cbn [when] in Hrun. unfold bind at 1 in Hrun. unfold bind at 1 in Hrun.
    rewrite (nl_call_present _ _ {| envs := ws; ui := u |} nl Henv) in Hrun.
    unfold on_ui at 1 in Hrun. cbn [ui envs] in Hrun. rewrite Hindex in Hrun.
    destruct (0 <? index) eqn:Hi; cbn [when] in Hrun.
    + right. exists (index - 1). split; [lia |].
      rewrite (nl_call_present envl (fun nl0 => select_row nl0 (index - 1))
                 {| envs := ws; ui := u |} nl Henv) in Hrun.
      rewrite Hrun. unfold bind, on_ui, ret. cbn [ui envs].
      destruct (select_row nl (index - 1) u) as [[e | []] u']; reflexivity.
    + left. exact Hrun.
  - destruct (focused =? 0) eqn:Hz; cbn [when] in Hrun.
    + right. exists 0. split; [lia |].
      unfold bind, ret in Hrun. cbv beta iota in Hrun.
      rewrite (nl_call_present envl (fun nl0 => select_row nl0 0)
                 {| envs := ws; ui := u |} nl Henv) in Hrun.
      rewrite Hrun. unfold bind, on_ui, ret. cbn [ui envs].
      destruct (select_row nl 0 u) as [[e | []] u']; reflexivity.
    + left. exact Hrun.
Qed.

(** X21. [select-next-row], on a file list whose three queries answer
    [focused], [len_sib] and [index] without touching the page (numbers
    that JavaScript adds exactly): with no row focused it selects row 0;
    with a row focused and [index < len_sib] it selects row [index + 1],
    which is then at most [len_sib]; in every other case it leaves the
    list alone. *)
Theorem select_next_row_bound envl (event : option (@Event U))
  (ws : gmap loc (gmap string handle)) u nl focused len_sib index :
  ws !! envl ≫= (fun o => o !! "notebooklist") = Some (HNotebookList nl) ->
  get_length_siblings nl ".focus" u = (inr focused, u) ->
  get_length_siblings nl ".list_item" u = (inr len_sib, u) ->
  nl_get_selected_index nl u = (inr index, u) ->
  - 2 ^ 53 <= index ->
  len_sib <= 2 ^ 53 ->
  (focused = 0 /\
   select_next_row envl event {| envs := ws; ui := u |} =
     bind (on_ui (select_row nl 0)) (fun _ => ret PUndefined)
       {| envs := ws; ui := u |}) \/
  (0 < focused /\ index < len_sib /\ index + 1 <= len_sib /\
   select_next_row envl event {| envs := ws; ui := u |} =
     bind (on_ui (select_row nl (index + 1))) (fun _ => ret PUndefined)
       {| envs := ws; ui := u |}) \/
  ((focused < 0 \/ (0 < focused /\ len_sib <= index)) /\
   select_next_row envl event {| envs := ws; ui := u |} =
     (inr PUndefined, {| envs := ws; ui := u |})).
Proof.
  intros Henv Hfocused Hrows Hindex _ _.
  remember (select_next_row envl event {| envs := ws; ui := u |}) as run eqn:Hrun.
  unfold select_next_row in Hrun. unfold bind at 1 in Hrun.
  rewrite (nl_call_present _ _ {| envs := ws; ui := u |} nl Henv) in Hrun.
  unfold on_ui at 1 in Hrun. cbn [ui envs] in Hrun. rewrite Hfocused in Hrun.
  unfold bind at 1 in Hrun.
  rewrite (nl_call_present _ _ {| envs := ws; ui := u |} nl Henv) in Hrun.
  unfold on_ui at 1 in Hrun. cbn [ui envs] in Hrun. rewrite Hrows in Hrun.
  destruct (0 <? focused) eqn:Hpos; cbn [when] in Hrun.
  - assert (Hz : (focused =? 0) = false) by lia. rewrite Hz in Hrun.
    cbn [when] in Hrun. unfold bind at 1 in Hrun. unfold bind at 1 in Hrun.
    rewrite (nl_call_present _ _ {| envs := ws; ui := u |} nl Henv) in Hrun.
    unfold on_ui at 1 in Hrun. cbn [ui envs] in Hrun. rewrite Hindex in Hrun.
    destruct (index <? len_sib) eqn:Hi; cbn [when] in Hrun.
    + right. left. split; [lia |]. split; [lia |]. split; [lia |].
      rewrite (nl_call_present envl (fun nl0 => select_row nl0 (index + 1))
                 {| envs := ws; ui := u |} nl Henv) in Hrun.
      rewrite Hrun. unfold bind, on_ui, ret. cbn [ui envs].
      destruct (select_row nl (index + 1) u) as [[e | []] u']; reflexivity.
    + right. right. split; [right; lia | exact Hrun].
  - destruct (focused =? 0) eqn:Hz; cbn [when] in Hrun.
    + left. split; [lia |].
      unfold bind, ret in Hrun. cbv beta iota in Hrun.
      rewrite (nl_call_present envl (fun nl0 => select_row nl0 0)
                 {| envs := ws; ui := u |} nl Henv) in Hrun.
      rewrite Hrun. unfold bind, on_ui, ret. cbn [ui envs].
      destruct (select_row nl 0 u) as [[e | []] u']; reflexivity.
    + right. right. split; [left; lia | exact Hrun].
Qed.

End MoreFacts.

(** ** The further properties at work on [Page] *)

Lemma extend_env_lookup_witness :
  envs (wld (loaded listing)) !! env handler_one =
    Some {[ "notebooklist" := HNotebookList file_list ]} /\
  ({[ "a" := HPrim (PNum 2); "b" := HPrim (PNum 3) ]} : gmap string (@handle page))
    !! "__proto__" = None /\
  exists s',
    extend_env handler_one
      {[ "a" := HPrim (PNum 2); "b" := HPrim (PNum 3) ]} (loaded listing) =
      (inr tt, s') /\
    (envs (wld s') !! env handler_one ≫= fun o => o !! "a") =
      Some (HPrim (PNum 2)).
Proof.
  assert (H : envs (wld (loaded listing)) !! env handler_one =
                Some {[ "notebooklist" := HNotebookList file_list ]})
    by reflexivity.
  assert (He : ({[ "a" := HPrim (PNum 2); "b" := HPrim (PNum 3) ]}
                  : gmap string (@handle page)) !! "__proto__" = None)
    by reflexivity.
  split; [exact H |]. split; [exact He |].
  destruct (extend_env_lookup handler_one
              {[ "a" := HPrim (PNum 2); "b" := HPrim (PNum 3) ]} _
              (loaded listing) "a" H He) as (s' & H1 & H2 & _).
  exists s'. split; [exact H1 | exact H2].
Defined.

(** [extend_env({a:1})] and then [extend_env({a:2, b:3})]. *)
Lemma extend_env_twice_witness :
  ({[ "a" := HPrim (PNum 1) ]} : gmap string (@handle page)) !! "__proto__" = None /\
  ({[ "a" := HPrim (PNum 2); "b" := HPrim (PNum 3) ]} : gmap string (@handle page))
    !! "__proto__" = None /\
  extend_env handler_one {[ "a" := HPrim (PNum 2); "b" := HPrim (PNum 3) ]}
    (extend_env handler_one {[ "a" := HPrim (PNum 1) ]} (loaded listing)).2 =
  extend_env handler_one
    ({[ "a" := HPrim (PNum 2); "b" := HPrim (PNum 3) ]} ∪ {[ "a" := HPrim (PNum 1) ]})
    (loaded listing).
Proof.
  assert (H1 : ({[ "a" := HPrim (PNum 1) ]} : gmap string (@handle page))
                 !! "__proto__" = None) by reflexivity.
  assert (H2 : ({[ "a" := HPrim (PNum 2); "b" := HPrim (PNum 3) ]}
                  : gmap string (@handle page)) !! "__proto__" = None)
    by reflexivity.
  split; [exact H1 |]. split; [exact H2 |].
  exact (extend_env_twice handler_one _ _ (loaded listing) H1 H2).
Defined.

Lemma get_name_round_trip_witness :
  handler_of (DFun noop) = Some noop /\
  exists s',
    get_name handler_one (DFun noop) (loaded bare) =
      (inr (PStr "auto.autogenerated-function () {}"), s') /\
    get_name handler_two (DPrim (PStr "auto.autogenerated-function () {}")) s' =
      (inr (PStr "auto.autogenerated-function () {}"), s').
Proof.
  split; [reflexivity |].
  destruct (get_name_round_trip handler_one handler_two (DFun noop) noop
              (loaded bare) eq_refl) as (s' & H1 & _ & H3).
  exists s'. split; [exact H1 | exact H3].
Defined.

Lemma get_name_invalid_witness :
  is_string (U:=page) (DPrim (PNum 42)) = false /\
  handler_of (U:=page) (DPrim (PNum 42)) = None /\
  get_name handler_one (DPrim (PNum 42)) (loaded bare) =
    (inl (Thrown (PStr "unknown datatype, cannot register")), loaded bare).
Proof.
  split; [reflexivity |]. split; [reflexivity |].
  exact (get_name_invalid handler_one (DPrim (PNum 42)) (loaded bare)
           eq_refl eq_refl).
Defined.

Lemma register_then_call_witness :
  handler_of (DFun yes) = Some yes /\
  exists full s',
    register handler_one (DFun yes) (Some "enter-row") (Some "ipython")
      (loaded bare) = (inr full, s') /\
    full = "ipython.enter-row" /\
    call handler_two full (Some keydown) None s' = (inr (PBool true), s').
Proof.
  split; [reflexivity |].
  destruct (register_then_call handler_one handler_two (DFun yes) yes
              (Some "enter-row") (Some "ipython") (Some keydown) None
              (loaded bare) eq_refl) as (full & s' & H1 & H2).
  exists full, s'. split; [exact H1 |].
  assert (Hfull : full = "ipython.enter-row")
    by (rewrite (register_callable _ _ _ _ _ _ (eq_refl : handler_of (DFun yes) = Some yes)) in H1;
        injection H1 as <- _; reflexivity).
  split; [exact Hfull |].
  rewrite H2. destruct s'. reflexivity.
Defined.

Lemma register_other_names_witness :
  register handler_one (DFun noop) None None (loaded bare) =
    (inr "auto.autogenerated-function () {}",
     (register handler_one (DFun noop) None None (loaded bare)).2) /\
  inr "auto.autogenerated-function () {}" <> (inr "ipython.ignore" : result string) /\
  proto_actions (register handler_one (DFun noop) None None (loaded bare)).2
    !! "ipython.ignore" = proto_actions (loaded bare) !! "ipython.ignore" /\
  wld (register handler_one (DFun noop) None None (loaded bare)).2 =
    wld (loaded bare).
Proof.
  assert (H : register handler_one (DFun noop) None None (loaded bare) =
    (inr "auto.autogenerated-function () {}",
     (register handler_one (DFun noop) None None (loaded bare)).2))
    by reflexivity.
  assert (Hne : inr "auto.autogenerated-function () {}" <>
                  (inr "ipython.ignore" : result string)) by discriminate.
  split; [exact H |]. split; [exact Hne |].
  exact (register_other_names handler_one (DFun noop) None None (loaded bare)
           _ _ "ipython.ignore" H Hne).
Defined.

(** The wrappers of two advanced actions have the same text. *)
Lemma register_same_text_collides_witness :
  fn_src (U:=page) (advanced_wrapper ignore) =
    fn_src (U:=page) (advanced_wrapper scroll_down) /\
  exists n s1 s2,
    register handler_one (DFun (advanced_wrapper ignore)) None None (loaded bare) =
      (inr n, s1) /\
    register handler_one (DFun (advanced_wrapper scroll_down)) None None s1 =
      (inr n, s2) /\
    call handler_two n (Some keydown) None s2 =
      in_world (fn_run (advanced_wrapper scroll_down) 2%positive (Some keydown)) s2.
Proof.
  split; [reflexivity |].
  exact (register_same_text_collides handler_one handler_two
           (DFun (advanced_wrapper ignore)) (DFun (advanced_wrapper scroll_down))
           (advanced_wrapper ignore) (advanced_wrapper scroll_down) None
           (Some keydown) None (loaded bare) eq_refl eq_refl eq_refl).
Defined.

Lemma loaded_has_ignore :
  proto_actions (loaded bare) !! "ipython.ignore" =
    Some (builtin_entry advanced_wrapper "ignore" ignore_source).
Proof.
  rewrite loaded_table.
  apply (builtin_table_advanced "ignore" ignore_source). left. reflexivity.
Qed.

Lemma reachable_names_dotted_witness :
  reachable (loaded bare) /\
  proto_actions (loaded bare) !! "ipython.ignore" =
    Some (builtin_entry advanced_wrapper "ignore" ignore_source) /\
  has_dot "ipython.ignore" = true /\ "ipython.ignore" ∉ object_prototype.
Proof.
  assert (Hr : reachable (loaded bare)) by constructor.
  split; [exact Hr |]. split; [exact loaded_has_ignore |].
  exact (reachable_names_dotted (loaded bare) "ipython.ignore" _ Hr loaded_has_ignore).
Defined.

Lemma loaded_entries_witness :
  proto_actions (loaded bare) !! "ipython.ignore" =
    Some (builtin_entry advanced_wrapper "ignore" ignore_source) /\
  exists k src,
    "ipython.ignore" = "ipython." ++ k /\
    ((In (k, src) _actions /\
      builtin_entry advanced_wrapper "ignore" ignore_source =
        builtin_entry simple_wrapper k src) \/
     (In (k, src) custom_ignore /\
      builtin_entry advanced_wrapper "ignore" ignore_source =
        builtin_entry advanced_wrapper k src)).
Proof.
  split; [exact loaded_has_ignore |].
  exact (loaded_entries bare "ipython.ignore" _ loaded_has_ignore).
Defined.



Lemma exists_exact_witness :
  reachable (loaded bare) /\
  ("no.such.action" ∉ object_prototype) /\
  exists b : bool,
    exists_ handler_one "no.such.action" (loaded bare) = (inr b, loaded bare) /\
    (b = true <-> is_Some (proto_actions (loaded bare) !! "no.such.action")).
Proof.
  assert (Hr : reachable (loaded bare)) by constructor.
  assert (Hn : "no.such.action" ∉ object_prototype)
    by (apply has_dot_not_inherited; reflexivity).
  split; [exact Hr |]. split; [exact Hn |].
  exact (exists_exact handler_one "no.such.action" (loaded bare) Hr Hn).
Defined.

Lemma inherited_names_witness :
  reachable (loaded bare) /\
  ("toString" ∈ object_prototype) /\
  exists_ handler_one "toString" (loaded bare) = (inr true, loaded bare) /\
  call handler_one "toString" (Some keydown) None (loaded bare) =
    (inl TypeError, loaded bare).
Proof.
  assert (Hr : reachable (loaded bare)) by constructor.
  assert (Hin : "toString" ∈ object_prototype) by (repeat constructor).
  split; [exact Hr |]. split; [exact Hin |].
  destruct (inherited_names handler_one "toString" (Some keydown) None
              (loaded bare) Hr Hin) as (_ & He & _ & Hc).
  split; [exact He | exact Hc].
Defined.

Lemma normalise_idempotent_witness :
  normalise (DObj {[ "handler" := DFun noop; "help" := DPrim (PNum 7);
                     "color" := DPrim (PStr "red") ]}) =
    inr (DObj {[ "handler" := DFun noop; "help" := DPrim (PNum 7);
                 "icon" := DPrim (PStr ""); "help_index" := DPrim (PStr "") ]}) /\
  normalise (DObj {[ "handler" := DFun noop; "help" := DPrim (PNum 7);
                     "icon" := DPrim (PStr ""); "help_index" := DPrim (PStr "") ]}) =
    inr (DObj {[ "handler" := DFun noop; "help" := DPrim (PNum 7);
                 "icon" := DPrim (PStr ""); "help_index" := DPrim (PStr "") ]}).
Proof.
  assert (H : normalise
    (DObj {[ "handler" := DFun noop; "help" := DPrim (PNum 7);
             "color" := DPrim (PStr "red") ]}) =
    inr (DObj {[ "handler" := DFun noop; "help" := DPrim (PNum 7);
                 "icon" := DPrim (PStr ""); "help_index" := DPrim (PStr "") ]}))
    by reflexivity.
  split; [exact H |].
  exact (normalise_idempotent _ _ H).
Defined.

Lemma normalise_keys_witness :
  normalise (DObj {[ "handler" := DFun noop; "help" := DPrim (PNum 7);
                     "color" := DPrim (PStr "red") ]}) =
    inr (DObj {[ "handler" := DFun noop; "help" := DPrim (PNum 7);
                 "icon" := DPrim (PStr ""); "help_index" := DPrim (PStr "") ]}) /\
  exists o,
    DObj {[ "handler" := DFun noop; "help" := DPrim (PNum 7);
            "icon" := DPrim (PStr ""); "help_index" := DPrim (PStr "") ]} = DObj o /\
    dom o = ({[ "handler"; "help"; "icon"; "help_index" ]} : gset string).
Proof.
  assert (H : normalise
    (DObj {[ "handler" := DFun noop; "help" := DPrim (PNum 7);
             "color" := DPrim (PStr "red") ]}) =
    inr (DObj {[ "handler" := DFun noop; "help" := DPrim (PNum 7);
                 "icon" := DPrim (PStr ""); "help_index" := DPrim (PStr "") ]}))
    by reflexivity.
  split; [exact H |].
  exact (normalise_keys _ _ H).
Defined.

Lemma blank_has_no_notebooklist : no_notebooklist 1%positive blank.
Proof. intros nl H. vm_compute in H. discriminate. Qed.

Lemma blank_has_no_notebook : no_notebook 1%positive blank.
Proof. intros nb H. vm_compute in H. discriminate. Qed.

Lemma simple_action_needs_notebooklist_witness :
  In ("enter-row", enter_row_source) _actions /\
  no_notebooklist 1%positive blank /\
  call handler_one "ipython.enter-row" (Some keydown) None (loaded blank) =
    (inl TypeError, loaded blank).
Proof.
  assert (Hin : In ("enter-row", enter_row_source) _actions)
    by (left; reflexivity).
  split; [exact Hin |]. split; [exact blank_has_no_notebooklist |].
  exact (simple_action_needs_notebooklist handler_one "enter-row"
           enter_row_source (Some keydown) None (loaded blank) Hin eq_refl
           blank_has_no_notebooklist).
Defined.

Lemma scroll_actions_prevent_first_witness :
  In "scroll-down" ["scroll-down"; "scroll-up"; "scroll-cell-center"; "scroll-cell-top"] /\
  no_notebook 1%positive blank /\
  call handler_one "ipython.scroll-down" (Some keydown) None (loaded blank) =
    (inl TypeError,
     {| proto_actions := proto_actions (loaded blank);
        wld := {| envs := envs blank; ui := preventDefault keydown (ui blank) |} |}).
Proof.
  assert (Hin : In "scroll-down"
    ["scroll-down"; "scroll-up"; "scroll-cell-center"; "scroll-cell-top"])
    by (left; reflexivity).
  split; [exact Hin |]. split; [exact blank_has_no_notebook |].
  exact (scroll_actions_prevent_first handler_one "scroll-down" keydown None
           (loaded blank) Hin eq_refl blank_has_no_notebook).
Defined.

Lemma cursor_and_save_return_false_witness :
  In "save-notebook"
    ["move-cursor-up-or-previous-cell"; "move-cursor-down-or-next-cell";
     "save-notebook"] /\
  exists v s',
    call handler_one "ipython.save-notebook" (Some keydown) None (loaded writing) =
      (inr v, s') /\
    v = PBool false.
Proof.
  assert (Hin : In "save-notebook"
    ["move-cursor-up-or-previous-cell"; "move-cursor-down-or-next-cell";
     "save-notebook"]) by (do 2 right; left; reflexivity).
  split; [exact Hin |].
  assert (Hret : exists v,
    (call handler_one "ipython.save-notebook" (Some keydown) None
       (loaded writing)).1 = inr v) by (eexists; vm_compute; reflexivity).
  destruct Hret as [v Hret].
  destruct (call handler_one "ipython.save-notebook" (Some keydown) None
              (loaded writing)) as [r s'] eqn:Hcall.
  cbn [fst] in Hret. subst r. exists v, s'. split; [reflexivity |].
  exact (cursor_and_save_return_false handler_one "save-notebook"
           (Some keydown) None (loaded writing) v s' Hin eq_refl Hcall).
Defined.

Lemma file_list_reads_only : reads_only file_list.
Proof. split; intros; eexists; reflexivity. Qed.

Lemma select_previous_row_bound_witness :
  reads_only file_list /\
  (select_previous_row 1%positive None listing = (inr PUndefined, listing) \/
   exists j,
     0 <= j /\
     select_previous_row 1%positive None listing =
       bind (on_ui (select_row file_list j)) (fun _ => ret PUndefined) listing).
Proof.
  split; [exact file_list_reads_only |].
  exact (select_previous_row_bound 1%positive None (envs listing) (ui listing)
           file_list eq_refl file_list_reads_only).
Defined.

Lemma select_next_row_bound_witness :
  get_length_siblings file_list ".focus" start = (inr 1, start) /\
  get_length_siblings file_list ".list_item" start = (inr 3, start) /\
  nl_get_selected_index file_list start = (inr 0, start) /\
  select_next_row 1%positive None listing =
    bind (on_ui (select_row file_list 1)) (fun _ => ret PUndefined) listing.
Proof.
  split; [reflexivity |]. split; [reflexivity |]. split; [reflexivity |].
  destruct (select_next_row_bound 1%positive None (envs listing) (ui listing)
              file_list 1 3 0 eq_refl eq_refl eq_refl eq_refl
              ltac:(lia) ltac:(lia))
    as [[H _] | [(_ & _ & _ & H) | [[H | [_ H]] _]]];
    [discriminate H | exact H | lia | lia].
Defined.
